(** * tools/classcification/train.py: the training script, embedded and verified

    The script is one linear pipeline: argument parsing, device selection,
    dataset and model construction, weight loading, optimizer and scheduler
    construction, then the epoch loop with its batch loop, the per-epoch
    schedule step and the checkpoint saves.

    Embedding.  Calls into torch, torchvision, logging and the filesystem are
    recorded, in program order, as [event]s of a trace; they are taken to
    return normally.  Where a property needs more of the framework or of the
    machine than the script checks (a batch size the DataLoader takes, a GPU
    when CUDA is asked for, a save folder in place) it says so in its
    hypotheses.  What the script itself decides (its branches, the
    exceptions it raises, the strings it builds, the meters it updates) is
    computed.  Python floats are idealised as rationals, with one extra value
    for a non-finite result. *)

From Stdlib Require Import ZArith QArith String Ascii List Bool Arith Lia.
From Stdlib Require Import DecimalString DecimalZ DecimalPos.
Import ListNotations.

Local Open Scope string_scope.
Local Open Scope list_scope.

(* ------------------------------------------------------------------ *)
(** ** Python values and built-ins used by the script *)

Module Py.

(** The values that reach a truth test or an [is None] test in the script. *)
Inductive value : Type :=
| VNone
| VBool (b : bool)
| VStr (s : string).

(** Truth value testing: [None], [False] and the empty string are false. *)
Definition truthy (v : value) : bool :=
  match v with
  | VNone => false
  | VBool b => b
  | VStr s => negb (String.eqb s "")
  end.

(** [a or b]: the first operand when it is true, else the second. *)
Definition or_ (a b : value) : value := if truthy a then a else b.

(** [v is None]. *)
Definition is_None (v : value) : bool :=
  match v with
  | VNone => true
  | _ => false
  end.

(** An optional command-line string as a value. *)
Definition of_opt (o : option string) : value :=
  match o with
  | None => VNone
  | Some s => VStr s
  end.

(** [a == b] and [a != b] on optional strings. *)
Definition opt_eqb (a b : option string) : bool :=
  match a, b with
  | None, None => true
  | Some x, Some y => String.eqb x y
  | _, _ => false
  end.

Definition opt_neqb (a b : option string) : bool := negb (opt_eqb a b).

(** [str(n)] and [repr(n)] of an int: the decimal numeral, with a leading
    minus sign for a negative number. *)
Definition str (z : Z) : string := NilZero.string_of_int (Z.to_int z).

Definition repr (z : Z) : string := str z.

(** [s.rfind(c)] for a one-character [c]: the highest index, or -1. *)
Fixpoint rfind_from (c : ascii) (s : string) (i : Z) (found : Z) : Z :=
  match s with
  | EmptyString => found
  | String a s' =>
      rfind_from c s' (i + 1)%Z (if Ascii.eqb a c then i else found)
  end.

Definition rfind (c : ascii) (s : string) : Z := rfind_from c s 0%Z (-1)%Z.

(** [s[i:]] and [s[:i]] for [0 <= i]. *)
Definition slice_from (s : string) (i : nat) : string :=
  String.substring i (String.length s - i) s.

Definition slice_to (s : string) (i : nat) : string :=
  String.substring 0 i s.

Definition startswith (p s : string) : bool := String.prefix p s.

Definition endswith (p s : string) : bool :=
  (String.length p <=? String.length s)%nat
  && String.eqb (slice_from s (String.length s - String.length p)) p.

End Py.

(** ** os.path (POSIX flavour) *)

Module OsPath.

Definition sep : ascii := "/"%char.
Definition extsep : ascii := "."%char.

(** The scan of [genericpath._splitext] over the leading dots of the last
    path component: [n] steps are left from [filenameIndex] to [dotIndex]. *)
Fixpoint skip_leading_dots (p : string) (dotIndex : nat)
         (filenameIndex : nat) (n : nat) : string * string :=
  match n with
  | O => (p, "")
  | S n' =>
      match String.get filenameIndex p with
      | Some c =>
          if Ascii.eqb c extsep
          then skip_leading_dots p dotIndex (S filenameIndex) n'
          else (Py.slice_to p dotIndex, Py.slice_from p dotIndex)
      | None => (p, "")
      end
  end.

(** [os.path.splitext(p)]: the extension starts at the last dot of the last
    component, leading dots of that component not counted. *)
Definition splitext (p : string) : string * string :=
  let sepIndex := Py.rfind sep p in
  let dotIndex := Py.rfind extsep p in
  if (sepIndex <? dotIndex)%Z
  then skip_leading_dots p (Z.to_nat dotIndex)
                         (Z.to_nat (sepIndex + 1))
                         (Z.to_nat (dotIndex - (sepIndex + 1)))
  else (p, "").

(** [os.path.join(a, b)]. *)
Definition join (a b : string) : string :=
  if Py.startswith "/" b then b
  else if String.eqb a "" || Py.endswith "/" a then a ++ b
  else a ++ "/" ++ b.

End OsPath.

(* ------------------------------------------------------------------ *)
(** ** Scalars *)

(** A Python float or a zero-dimensional tensor: a rational, or a non-finite
    result (inf, nan). *)
Inductive scalar : Type :=
| Finite (q : Q)
| NonFinite.

Definition scalar_add (a b : scalar) : scalar :=
  match a, b with
  | Finite x, Finite y => Finite (x + y)
  | _, _ => NonFinite
  end.

(** [a * n] for an int [n]. *)
Definition scalar_mul_int (a : scalar) (n : Z) : scalar :=
  match a with
  | Finite x => Finite (x * inject_Z n)
  | NonFinite => NonFinite
  end.

(** [a / n] for an int [n]; a zero divisor gives a non-finite result. *)
Definition scalar_div_int (a : scalar) (n : Z) : scalar :=
  match a with
  | Finite x => if (n =? 0)%Z then NonFinite else Finite (x / inject_Z n)
  | NonFinite => NonFinite
  end.

(** Equality of scalars up to the representation of the rational. *)
Definition scalar_eq (a b : scalar) : Prop :=
  match a, b with
  | Finite x, Finite y => x == y
  | NonFinite, NonFinite => True
  | _, _ => False
  end.

(* ------------------------------------------------------------------ *)
(** ** utils.AverageMeter and utils.accuracy *)

(** Modelled from the spec: [utils/AverageMeter.py] is missing from the
    sources.  The spec has "scalar running-average metrics (loss, top-1
    accuracy) held in memory for the duration of a training run": a meter
    keeps the last value, the weighted sum, the total weight and their
    quotient. *)
Record AverageMeter : Type := {
  val : scalar;
  avg : scalar;
  sum : scalar;
  count : Z
}.

Definition AverageMeter_new : AverageMeter :=
  {| val := Finite 0; avg := Finite 0; sum := Finite 0; count := 0%Z |}.

(** Modelled from the spec: [AverageMeter.update(val, n)], the running
    average weighted by [n]. *)
Definition update (m : AverageMeter) (v : scalar) (n : Z) : AverageMeter :=
  let sum' := scalar_add (sum m) (scalar_mul_int v n) in
  let count' := (count m + n)%Z in
  {| val := v; avg := scalar_div_int sum' count'; sum := sum'; count := count' |}.

(** The index of the first greatest score among [xs], scanning from index
    [i] with the best index and score so far. *)
Fixpoint argmax_from (xs : list Q) (i : nat) (best : nat) (bestv : Q) : nat :=
  match xs with
  | [] => best
  | x :: xs' =>
      if Qlt_le_dec bestv x
      then argmax_from xs' (S i) i x
      else argmax_from xs' (S i) best bestv
  end.

(** The highest-scoring class of one sample. *)
Definition highest_scoring (scores : list Q) : option nat :=
  match scores with
  | [] => None
  | x :: xs => Some (argmax_from xs 1 0 x)
  end.

(** A sample is a hit when its highest-scoring class is its label. *)
Definition hit (sample : list Q * Z) : bool :=
  match highest_scoring (fst sample) with
  | Some k => (Z.of_nat k =? snd sample)%Z
  | None => false
  end.

Definition correct_count (outputs : list (list Q)) (targets : list Z) : nat :=
  List.length (filter hit (combine outputs targets)).

(** Modelled from the spec: [utils/accuracy.py] is missing from the sources.
    The spec has "Top-1 accuracy: fraction of samples whose highest-scoring
    predicted class matches the true label".  The script calls
    [accuracy(outputs, targets, topk=(1, 1))] and keeps the first of the two
    top-1 figures. *)
Definition accuracy (outputs : list (list Q)) (targets : list Z) : scalar :=
  scalar_div_int (Finite (inject_Z (Z.of_nat (correct_count outputs targets))))
                 (Z.of_nat (List.length targets)).

(* ------------------------------------------------------------------ *)
(** ** Configuration and the world the script runs in *)

(** The namespace returned by [parse_args]. *)
Record Args : Type := {
  dataset : string;
  dataset_root : option string;
  basenet : string;
  depth : Z;
  batch_size : Z;
  pretrained : Py.value;
  num_workers : Z;
  cuda : Py.value;
  save_folder : string;
  tensorboard : Py.value;
  log_folder : string;
  log_name : string;
  tensorboard_log : string;
  lr : Q;
  epochs : Z;
  num_classes : Z;
  image_size : Z;
  accumulation_steps : Z;
  resume : option string
}.

Definition image : Type := list Q.

(** One item yielded by the data loader: [images, targets = data]. *)
Record batch : Type := {
  images : list image;
  targets : list Z
}.

(** What the script takes from outside: the path constants of [utils.path]
    (that module is not among the sources), the machine, the filesystem, and
    the numeric results of the framework. *)
Record Env : Type := {
  CIFAR_path : string;
  PETS_path : string;
  CheckPoints : string;
  log : string;
  classification_train_log : string;
  tensorboard_log_path : string;
  cuda_is_available : bool;
  path_exists : string -> bool;
  dataset_len : Z;
  (** the batches the shuffling loader yields in a given epoch *)
  dataloader : nat -> list batch;
  (** [model(images)] at a given iteration: one score per class and sample *)
  model_forward : nat -> list image -> list (list Q);
  (** [criterion(outputs, targets.long())] *)
  cross_entropy : list (list Q) -> list Z -> scalar
}.

(** [parse_args] on an empty command line: every option at its default. *)
Definition parse_args (env : Env) : Args :=
  {| dataset := "pets";
     dataset_root := Some (PETS_path env);
     basenet := "vgg";
     depth := 16;
     batch_size := 64;
     pretrained := Py.VBool true;
     num_workers := 0;
     cuda := Py.VBool true;
     save_folder := CheckPoints env;
     tensorboard := Py.VBool false;
     log_folder := log env;
     log_name := classification_train_log env;
     tensorboard_log := tensorboard_log_path env;
     lr := 1 # 1000;
     epochs := 200;
     num_classes := 2;
     image_size := 64;
     accumulation_steps := 1;
     resume := None |}.

(* ------------------------------------------------------------------ *)
(** ** Traces, exceptions and the monad of the script *)

Inductive meter_id : Type := Top1 | Losses.

(** The calls that leave the script, in the order the script makes them. *)
Inductive event : Type :=
| SetDefaultTensorType (t : string)
| Print (s : string)
| Mkdir (path : string)
| GetLogger (folder name : string)
| SummaryWriter (logdir : string)
| MakeDataset (name : string) (root : option string) (size : Z)
| MakeDataLoader (batch num_workers : Z)
| MakeModel (num_classes : Z) (pretrained : Py.value)
| ModelCuda
| DataParallel
| LoadStateDict (path : string)
| ApplyWeightsInit
| ModelTrain
| MakeOptimizer (lr : Q)
| MakeCriterion
| MakeScheduler (patience : Z)
| LogArgs
| EmptyCache
| ToCuda
| ZeroGrad
| Forward (iteration : nat)
| CriterionCuda
| Criterion (loss : scalar)
| Backward (loss : scalar)
| OptimizerStep
| MeterUpdate (m : meter_id) (v : scalar) (n : Z)
| AddScalar (tag : string) (v : scalar) (iteration : nat)
| LogInfo (epoch iteration : nat) (acc1 loss avg_loss : scalar)
| SchedulerStep (metric : scalar)
| PrintEpochFinished (epoch : nat)
| Save (path : string)
| WriterClose
| PrintFinishedTime
| SetStartMethod (method : string)
| LoggerInfo (msg : string)
| PrintResult (top1 loss : scalar).

Inductive exn : Type :=
| ValueError (msg : string)
| UnboundLocalError (name : string)
| ZeroDivisionError (msg : string).

Inductive outcome (A : Type) : Type :=
| Return (a : A)
| Raise (e : exn).

Arguments Return {A} a.
Arguments Raise {A} e.

(** A computation: the trace it leaves and how it ends. *)
Definition M (A : Type) : Type := (list event * outcome A)%type.

Definition ret {A : Type} (a : A) : M A := ([], Return a).

Definition bind {A B : Type} (m : M A) (k : A -> M B) : M B :=
  match m with
  | (t, Return a) => let (t', r) := k a in (t ++ t', r)
  | (t, Raise e) => (t, Raise e)
  end.

Definition emit (e : event) : M unit := ([e], Return tt).

Definition emits (es : list event) : M unit := (es, Return tt).

Definition raise {A : Type} (e : exn) : M A := ([], Raise e).

Definition when (b : bool) (m : M unit) : M unit := if b then m else ret tt.

Declare Scope script_scope.
Delimit Scope script_scope with script.

Notation "x <- m ;; k" := (bind m (fun x => k))
  (at level 61, m at next level, right associativity) : script_scope.
Notation "m ;; k" := (bind m (fun _ => k))
  (at level 61, right associativity) : script_scope.

Definition trace_of {A : Type} (m : M A) : list event := fst m.
Definition outcome_of {A : Type} (m : M A) : outcome A := snd m.

(* ------------------------------------------------------------------ *)
(** ** Module-level setup (lines 111-129) *)

Definition os_path_exists (env : Env) (p : string) : Py.value :=
  Py.VBool (path_exists env p).

Definition module_setup (env : Env) (args : Args) : list event :=
  (if cuda_is_available env
   then (if Py.truthy (cuda args)
         then [SetDefaultTensorType "torch.cuda.FloatTensor"]
         else [])
        ++
        (if negb (Py.truthy (cuda args))
         then [Print ("WARNING: It looks like you have a CUDA device, but you aren't using it"
                      ++ String "010"%char
                           " You can set the parameter of cuda to True.");
               SetDefaultTensorType "torch.FloatTensor"]
         else [])
   else [SetDefaultTensorType "torch.FloatTensor"])
  ++
  (if Py.is_None (os_path_exists env (save_folder args))
   then [Mkdir (save_folder args)]
   else [])
  ++
  [GetLogger (log_folder args) (log_name args)].

(* ------------------------------------------------------------------ *)
(** ** The training loop (lines 219-272) *)

Record loop_state : Type := {
  iteration : nat;
  top1 : AverageMeter;
  losses : AverageMeter
}.

(** The body of the batch loop (lines 224-255). *)
Definition train_batch (env : Env) (args : Args) (epoch : nat)
           (st : loop_state) (data : batch) : loop_state * list event :=
  let iteration' := S (iteration st) in
  let size0 := Z.of_nat (List.length (images data)) in
  let outputs := model_forward env iteration' (images data) in
  let loss0 := cross_entropy env outputs (targets data) in
  let loss := scalar_div_int loss0 (accumulation_steps args) in
  let acc1 := accuracy outputs (targets data) in
  let top1' := update (top1 st) acc1 size0 in
  let losses' := update (losses st) loss size0 in
  ({| iteration := iteration'; top1 := top1'; losses := losses' |},
   (if Py.truthy (cuda args) then [ToCuda] else [])
   ++ [ZeroGrad; Forward iteration']
   ++ (if Py.truthy (cuda args) then [CriterionCuda] else [])
   ++ [Criterion loss0; Backward loss; OptimizerStep;
       MeterUpdate Top1 acc1 size0; MeterUpdate Losses loss size0]
   ++ (if Py.truthy (tensorboard args)
       then [AddScalar "train_classification_loss" loss iteration']
       else [])
   ++ (if (iteration' mod 1 =? 0)%nat
       then [LogInfo epoch iteration' acc1 loss (avg losses')]
       else [])).

(** [for data in dataloader: ...] *)
Fixpoint batch_loop (env : Env) (args : Args) (epoch : nat)
         (st : loop_state) (data : list batch) : loop_state * list event :=
  match data with
  | [] => (st, [])
  | d :: rest =>
      let (st1, t1) := train_batch env args epoch st d in
      let (st2, t2) := batch_loop env args epoch st1 rest in
      (st2, t1 ++ t2)
  end.

(** The name of the checkpoint written at the fixed epoch interval. *)
Definition interval_checkpoint (args : Args) (epoch : nat) : string :=
  save_folder args ++ "/" ++ dataset args ++ "_" ++ basenet args
    ++ Py.str (depth args) ++ "_" ++ Py.repr (Z.of_nat epoch) ++ ".pth".

(** The name of the checkpoint written at every epoch end. *)
Definition epoch_end_checkpoint (args : Args) : string :=
  save_folder args ++ "/" ++ dataset args ++ "_" ++ basenet args
    ++ Py.str (depth args) ++ ".pth".

(** Step 14 of the script, "Save train model" (lines 266-272). *)
Definition save_model (args : Args) (epoch : nat) : list event :=
  (if negb (epoch =? 0)%nat && (epoch mod 5 =? 0)%nat
   then [Print ("Saving state, iter: " ++ Py.repr (Z.of_nat epoch));
         Save (interval_checkpoint args epoch)]
   else [])
  ++ [Save (epoch_end_checkpoint args)].

(** The body of the epoch loop (lines 220-272). *)
Definition train_epoch (env : Env) (args : Args)
           (st : loop_state) (epoch : nat) : loop_state * list event :=
  let (st', tb) := batch_loop env args epoch st (dataloader env epoch) in
  (st',
   [EmptyCache] ++ tb ++ [SchedulerStep (avg (losses st'))]
   ++ [PrintEpochFinished epoch] ++ save_model args epoch).

(** [for epoch in range(...): ...] over the listed epochs. *)
Fixpoint epoch_loop (env : Env) (args : Args)
         (st : loop_state) (es : list nat) : loop_state * list event :=
  match es with
  | [] => (st, [])
  | e :: rest =>
      let (st1, t1) := train_epoch env args st e in
      let (st2, t2) := epoch_loop env args st1 rest in
      (st2, t1 ++ t2)
  end.

(** [range(n)]: empty for [n <= 0]. *)
Definition range (n : Z) : list nat := seq 0 (Z.to_nat n).

(* ------------------------------------------------------------------ *)
(** ** [train] (lines 132-282) *)

Inductive dataset_obj : Type :=
| CIFAR10_dataset
| pets_dataset.

Section Train.

Local Open Scope script_scope.

(** Step 4, "Ready dataset".  The result is the binding of the local
    variable [dataset]: unbound when neither branch is taken. *)
Definition ready_dataset (env : Env) (args : Args) : M (option dataset_obj) :=
  if String.eqb (dataset args) "CIFAR10" then
    (if Py.opt_neqb (dataset_root args) (Some (CIFAR_path env))
     then raise (ValueError "Must specify dataset_root if specifying dataset CIFAR10.")
     else if Py.is_None (Py.of_opt (dataset_root args))
     then raise (ValueError "Must provide --dataset_root when training on CIFAR10.")
     else ret tt) ;;
    emit (MakeDataset "CIFAR10" (dataset_root args) (image_size args)) ;;
    ret (Some CIFAR10_dataset)
  else if String.eqb (dataset args) "pets" then
    (if Py.opt_neqb (dataset_root args) (Some (PETS_path env))
     then raise (ValueError "Must specify dataset_root if specifying dataset PETS.")
     else if Py.is_None (Py.of_opt (dataset_root args))
     then raise (ValueError "Must provide --dataset_root when training on PETS.")
     else ret tt) ;;
    emit (MakeDataset "pets" (dataset_root args) (image_size args)) ;;
    ret (Some pets_dataset)
  else ret None.

(** Step 5, "Define train model". *)
Definition define_model (args : Args) : M unit :=
  if String.eqb (basenet args) "vgg" then
    if (depth args =? 16)%Z
    then emit (MakeModel (num_classes args) (pretrained args))
    else raise (ValueError "Unsupported model depth!")
  else raise (ValueError "Unsupported model type!").

(** Lines 179-184. *)
Definition place_model (env : Env) (args : Args) : M unit :=
  if Py.truthy (cuda args) then
    when (cuda_is_available env) (emits [ModelCuda; DataParallel; ModelCuda])
  else emit DataParallel.

(** The test of line 189, [ext == '.pkl' or '.pth']. *)
Definition supported_ext (ext : string) : Py.value :=
  Py.or_ (Py.VBool (String.eqb ext ".pkl")) (Py.VStr ".pth").

(** Step 6, "Loading weights". *)
Definition loading_weights (args : Args) : M unit :=
  if Py.truthy (Py.of_opt (resume args)) then
    match resume args with
    | Some file =>
        let (other, ext) := OsPath.splitext file in
        if Py.truthy (supported_ext ext) then
          emit (Print "Loading weights into state dict...") ;;
          emit (LoadStateDict (OsPath.join (save_folder args) file))
        else emit (Print "Sorry only .pth and .pkl files supported.")
    | None => ret tt
    end
  else if Py.is_None (Py.of_opt (resume args)) then
    emit (Print "Initializing weights...") ;;
    emit ApplyWeightsInit
  else ret tt.

(** Step 8, "Length": [len(dataset) // args.batch_size]. *)
Definition floordiv (a b : Z) : M Z :=
  if (b =? 0)%Z
  then raise (ZeroDivisionError "integer division or modulo by zero")
  else ret (a / b)%Z.

Definition initial_state : loop_state :=
  {| iteration := 0; top1 := AverageMeter_new; losses := AverageMeter_new |}.

Definition train (env : Env) (args : Args) : M (scalar * scalar) :=
  when (Py.truthy (tensorboard args)) (emit (SummaryWriter (tensorboard_log args))) ;;
  ds <- ready_dataset env args ;;
  match ds with
  | None => raise (UnboundLocalError "dataset")
  | Some _ =>
      emit (MakeDataLoader (batch_size args) (num_workers args)) ;;
      define_model args ;;
      place_model env args ;;
      loading_weights args ;;
      emit ModelTrain ;;
      emit (MakeOptimizer (lr args)) ;;
      emit MakeCriterion ;;
      emit (MakeScheduler 3) ;;
      iter_size <- floordiv (dataset_len env) (batch_size args) ;;
      emit (Print ("len(dataset): " ++ Py.str (dataset_len env)
                   ++ ", iter_size: " ++ Py.str iter_size)) ;;
      emit LogArgs ;;
      let (st, t) := epoch_loop env args initial_state (range (epochs args)) in
      emits t ;;
      when (Py.truthy (tensorboard args)) (emit WriterClose) ;;
      emit PrintFinishedTime ;;
      ret (avg (top1 st), avg (losses st))
  end.

(** The script as run from the command line: the module-level statements,
    then the [__main__] block (lines 296-301). *)
Definition script (env : Env) (args : Args) : M unit :=
  emits (module_setup env args) ;;
  emit (SetStartMethod "spawn") ;;
  emit (LoggerInfo "Program started") ;;
  r <- train env args ;;
  emit (PrintResult (fst r) (snd r)) ;;
  emit (LoggerInfo "Done!").

End Train.

(* ------------------------------------------------------------------ *)
(** ** Observations on traces *)

(** The steps of one training iteration. *)
Inductive phase : Type :=
| GradientZeroing
| ForwardPass
| LossComputation
| BackwardPass
| OptimizerStepping
| MetricAccumulation (m : meter_id).

Definition phase_of (e : event) : option phase :=
  match e with
  | ZeroGrad => Some GradientZeroing
  | Forward _ => Some ForwardPass
  | Criterion _ => Some LossComputation
  | Backward _ => Some BackwardPass
  | OptimizerStep => Some OptimizerStepping
  | MeterUpdate m _ _ => Some (MetricAccumulation m)
  | _ => None
  end.

(** The events of a trace that satisfy an observation, in order. *)
Fixpoint observe {A : Type} (f : event -> option A) (t : list event) : list A :=
  match t with
  | [] => []
  | e :: t' =>
      match f e with
      | Some a => a :: observe f t'
      | None => observe f t'
      end
  end.

Definition phases (t : list event) : list phase := observe phase_of t.

(** What one iteration does, in order. *)
Definition batch_phases : list phase :=
  [GradientZeroing; ForwardPass; LossComputation; BackwardPass;
   OptimizerStepping; MetricAccumulation Top1; MetricAccumulation Losses].

Definition saved_path (e : event) : option string :=
  match e with
  | Save p => Some p
  | _ => None
  end.

(** The checkpoint files written along a trace. *)
Definition saves (t : list event) : list string := observe saved_path t.

Definition scheduler_metric (e : event) : option scalar :=
  match e with
  | SchedulerStep m => Some m
  | _ => None
  end.

(** The metrics handed to the plateau scheduler along a trace. *)
Definition scheduler_steps (t : list event) : list scalar :=
  observe scheduler_metric t.

Definition loaded_path (e : event) : option string :=
  match e with
  | LoadStateDict p => Some p
  | _ => None
  end.

Definition made_dir (e : event) : option string :=
  match e with
  | Mkdir p => Some p
  | _ => None
  end.

(** Events of the start-up and of the closing of [train]: none of them
    belongs to the epoch loop but [Print]. *)
Definition setup_event (e : event) : bool :=
  match e with
  | SummaryWriter _ | MakeDataset _ _ _ | MakeDataLoader _ _ | MakeModel _ _
  | ModelCuda | DataParallel | Print _ | LoadStateDict _ | ApplyWeightsInit
  | ModelTrain | MakeOptimizer _ | MakeCriterion | MakeScheduler _ | LogArgs
  | WriterClose | PrintFinishedTime => true
  | _ => false
  end.

(** Events of the epoch loop. *)
Definition loop_event (e : event) : bool :=
  match e with
  | EmptyCache | ToCuda | ZeroGrad | Forward _ | CriterionCuda | Criterion _
  | Backward _ | OptimizerStep | MeterUpdate _ _ _ | AddScalar _ _ _
  | LogInfo _ _ _ _ _ | SchedulerStep _ | PrintEpochFinished _ | Save _
  | Print _ => true
  | _ => false
  end.

(** All the batches of a run over the epochs [es], in the order seen. *)
Definition batches_of (env : Env) (es : list nat) : list batch :=
  flat_map (dataloader env) es.

(** The checkpoint files one epoch writes. *)
Definition epoch_checkpoints (args : Args) (epoch : nat) : list string :=
  (if negb (epoch =? 0)%nat && (epoch mod 5 =? 0)%nat
   then [interval_checkpoint args epoch]
   else [])
  ++ [epoch_end_checkpoint args].

(** The root directory the script requires for the chosen dataset. *)
Definition required_root (env : Env) (args : Args) : string :=
  if String.eqb (dataset args) "CIFAR10" then CIFAR_path env else PETS_path env.

(** The texts of the errors [train] raises on a bad configuration. *)
Definition config_error_messages : list string :=
  ["Must specify dataset_root if specifying dataset CIFAR10.";
   "Must specify dataset_root if specifying dataset PETS.";
   "Unsupported model depth!";
   "Unsupported model type!"].

(** A configuration that passes every check of [train]. *)
Definition config_ok (env : Env) (args : Args) : bool :=
  (String.eqb (dataset args) "CIFAR10" || String.eqb (dataset args) "pets")
  && Py.opt_eqb (dataset_root args) (Some (required_root env args))
  && String.eqb (basenet args) "vgg"
  && (depth args =? 16)%Z
  && negb (batch_size args =? 0)%Z.

(** The samples and the top-1 hits of a list of batches, the first of which
    is iteration [S i]. *)
Fixpoint samples_seen (data : list batch) : Z :=
  match data with
  | [] => 0%Z
  | d :: rest => (Z.of_nat (List.length (images d)) + samples_seen rest)%Z
  end.

Fixpoint hits_seen (env : Env) (i : nat) (data : list batch) : Z :=
  match data with
  | [] => 0%Z
  | d :: rest =>
      (Z.of_nat (correct_count (model_forward env (S i) (images d)) (targets d))
       + hits_seen env (S i) rest)%Z
  end.

(** The spec's "highest-scoring predicted class matches the true label", in
    its own words: [label] is a class of [scores] that no class outscores,
    and, where several classes share the greatest score, the first of them,
    which is the one predicted. *)
Definition top1_is (scores : list Q) (label : Z) : Prop :=
  exists k : nat,
    label = Z.of_nat k
    /\ (k < List.length scores)%nat
    /\ (forall j : nat, (j < List.length scores)%nat ->
                        nth j scores 0 <= nth k scores 0)
    /\ (forall j : nat, (j < k)%nat -> nth j scores 0 < nth k scores 0).

(** What a run needs from the framework and the machine for the calls it
    makes to return: a positive batch size for the DataLoader, a GPU when
    CUDA is asked for, and a save folder that exists for [torch.save]. *)
Definition framework_ready (env : Env) (args : Args) : Prop :=
  (0 < batch_size args)%Z
  /\ (Py.truthy (cuda args) = true -> cuda_is_available env = true)
  /\ path_exists env (save_folder args) = true.

(** A batch as the loader yields it: as many labels as images, and at least
    one image. *)
Definition well_formed (d : batch) : Prop :=
  List.length (images d) = List.length (targets d) /\ images d <> [].

(** The events of one iteration. *)
Definition batch_event (e : event) : bool :=
  match e with
  | ToCuda | ZeroGrad | Forward _ | CriterionCuda | Criterion _ | Backward _
  | OptimizerStep | MeterUpdate _ _ _ | AddScalar _ _ _
  | LogInfo _ _ _ _ _ => true
  | _ => false
  end.

(** The events of [train] after the epoch loop (lines 274-281). *)
Definition closing (args : Args) : list event :=
  (if Py.truthy (tensorboard args) then [WriterClose] else [])
  ++ [PrintFinishedTime].

Definition backward_loss (e : event) : option scalar :=
  match e with
  | Backward l => Some l
  | _ => None
  end.

Definition top1_update (e : event) : option (scalar * Z) :=
  match e with
  | MeterUpdate Top1 v n => Some (v, n)
  | _ => None
  end.

(** For each optimizer step of a list of phases, the number of backward
    passes whose gradients it applies: those made since the gradients were
    last zeroed or applied.  [pending] counts the backward passes so far. *)
Fixpoint backwards_per_step (ps : list phase) (pending : nat) : list nat :=
  match ps with
  | [] => []
  | BackwardPass :: rest => backwards_per_step rest (S pending)
  | OptimizerStepping :: rest => pending :: backwards_per_step rest O
  | GradientZeroing :: rest => backwards_per_step rest O
  | _ :: rest => backwards_per_step rest pending
  end.

Definition with_accumulation_steps (args : Args) (k : Z) : Args :=
  {| dataset := dataset args; dataset_root := dataset_root args;
     basenet := basenet args; depth := depth args;
     batch_size := batch_size args; pretrained := pretrained args;
     num_workers := num_workers args; cuda := cuda args;
     save_folder := save_folder args; tensorboard := tensorboard args;
     log_folder := log_folder args; log_name := log_name args;
     tensorboard_log := tensorboard_log args; lr := lr args;
     epochs := epochs args; num_classes := num_classes args;
     image_size := image_size args;
     accumulation_steps := k; resume := resume args |}.

(** A meter that has been fed values of weighted sum [s] and total weight
    [c]: it holds that sum, that weight and their quotient. *)
Definition meter_holds (m : AverageMeter) (s : Q) (c : Z) : Prop :=
  exists q, sum m = Finite q /\ q == s /\ count m = c
            /\ scalar_eq (avg m) (Finite (s / inject_Z c)).

(* ------------------------------------------------------------------ *)
(** ** A concrete run, for examples *)

Definition sample_env : Env :=
  {| CIFAR_path := "data/cifar";
     PETS_path := "data/pets";
     CheckPoints := "checkpoints";
     log := "log";
     classification_train_log := "classification_train";
     tensorboard_log_path := "tensorboard";
     cuda_is_available := false;
     path_exists := fun _ => false;
     dataset_len := 3;
     dataloader := fun _ =>
       [ {| images := [[1; 2]; [4; 3]]; targets := [0%Z; 0%Z] |};
         {| images := [[5; 6]]; targets := [1%Z] |} ];
     model_forward := fun _ imgs => imgs;
     cross_entropy := fun _ _ => Finite (1 # 2) |}.

Definition sample_args : Args :=
  {| dataset := "pets";
     dataset_root := Some "data/pets";
     basenet := "vgg";
     depth := 16;
     batch_size := 2;
     pretrained := Py.VBool true;
     num_workers := 0;
     cuda := Py.VBool false;
     save_folder := "checkpoints";
     tensorboard := Py.VBool false;
     log_folder := "log";
     log_name := "classification_train";
     tensorboard_log := "tensorboard";
     lr := 1 # 1000;
     epochs := 7;
     num_classes := 2;
     image_size := 64;
     accumulation_steps := 2;
     resume := None |}.

(** The same world on a machine with a GPU and with the folders in place. *)
Definition gpu_env : Env :=
  {| CIFAR_path := "data/cifar";
     PETS_path := "data/pets";
     CheckPoints := "checkpoints";
     log := "log";
     classification_train_log := "classification_train";
     tensorboard_log_path := "tensorboard";
     cuda_is_available := true;
     path_exists := fun _ => true;
     dataset_len := 3;
     dataloader := fun _ =>
       [ {| images := [[1; 2]; [4; 3]]; targets := [0%Z; 0%Z] |};
         {| images := [[5; 6]]; targets := [1%Z] |} ];
     model_forward := fun _ imgs => imgs;
     cross_entropy := fun _ _ => Finite (1 # 2) |}.

Definition sample_batch : batch :=
  {| images := [[1; 2]; [4; 3]]; targets := [0%Z; 0%Z] |}.

Definition with_resume (args : Args) (r : option string) : Args :=
  {| dataset := dataset args; dataset_root := dataset_root args;
     basenet := basenet args; depth := depth args;
     batch_size := batch_size args; pretrained := pretrained args;
     num_workers := num_workers args; cuda := cuda args;
     save_folder := save_folder args; tensorboard := tensorboard args;
     log_folder := log_folder args; log_name := log_name args;
     tensorboard_log := tensorboard_log args; lr := lr args;
     epochs := epochs args; num_classes := num_classes args;
     image_size := image_size args;
     accumulation_steps := accumulation_steps args; resume := r |}.

Definition with_depth (args : Args) (d : Z) : Args :=
  {| dataset := dataset args; dataset_root := dataset_root args;
     basenet := basenet args; depth := d;
     batch_size := batch_size args; pretrained := pretrained args;
     num_workers := num_workers args; cuda := cuda args;
     save_folder := save_folder args; tensorboard := tensorboard args;
     log_folder := log_folder args; log_name := log_name args;
     tensorboard_log := tensorboard_log args; lr := lr args;
     epochs := epochs args; num_classes := num_classes args;
     image_size := image_size args;
     accumulation_steps := accumulation_steps args; resume := resume args |}.

Definition with_epochs (args : Args) (n : Z) : Args :=
  {| dataset := dataset args; dataset_root := dataset_root args;
     basenet := basenet args; depth := depth args;
     batch_size := batch_size args; pretrained := pretrained args;
     num_workers := num_workers args; cuda := cuda args;
     save_folder := save_folder args; tensorboard := tensorboard args;
     log_folder := log_folder args; log_name := log_name args;
     tensorboard_log := tensorboard_log args; lr := lr args;
     epochs := n; num_classes := num_classes args;
     image_size := image_size args;
     accumulation_steps := accumulation_steps args; resume := resume args |}.

(* ------------------------------------------------------------------ *)
(** ** Further observations on traces *)




(** The opening and the closing of the tensorboard writer. *)
Definition writer_event (e : event) : option event :=
  match e with
  | SummaryWriter _ | WriterClose => Some e
  | _ => None
  end.

(** The default tensor type set by the module-level statements. *)
Definition tensor_type (e : event) : option string :=
  match e with
  | SetDefaultTensorType t => Some t
  | _ => None
  end.


(** The loss an iteration hands to the loss meter. *)
Definition recorded_loss (e : event) : option scalar :=
  match e with
  | MeterUpdate Losses v _ => Some v
  | _ => None
  end.

(** The loss an iteration computes, before any scaling. *)
Definition computed_loss (e : event) : option scalar :=
  match e with
  | Criterion l => Some l
  | _ => None
  end.

(** The warning of line 118. *)
Definition cuda_warning : string :=
  "WARNING: It looks like you have a CUDA device, but you aren't using it"
  ++ String "010"%char " You can set the parameter of cuda to True.".

(** The events that create or overwrite the weights of the model. *)
Definition weights_event (e : event) : option event :=
  match e with
  | MakeModel _ _ | LoadStateDict _ | ApplyWeightsInit => Some e
  | _ => None
  end.

(** The epochs below [n] at which the interval checkpoint is written. *)
Definition interval_epochs (n : nat) : list nat :=
  filter (fun e => negb (e =? 0)%nat && (e mod 5 =? 0)%nat) (seq 0 n).

Definition with_dataset (args : Args) (d : string) : Args :=
  {| dataset := d; dataset_root := dataset_root args;
     basenet := basenet args; depth := depth args;
     batch_size := batch_size args; pretrained := pretrained args;
     num_workers := num_workers args; cuda := cuda args;
     save_folder := save_folder args; tensorboard := tensorboard args;
     log_folder := log_folder args; log_name := log_name args;
     tensorboard_log := tensorboard_log args; lr := lr args;
     epochs := epochs args; num_classes := num_classes args;
     image_size := image_size args;
     accumulation_steps := accumulation_steps args; resume := resume args |}.


Definition with_tensorboard (args : Args) (c : Py.value) : Args :=
  {| dataset := dataset args; dataset_root := dataset_root args;
     basenet := basenet args; depth := depth args;
     batch_size := batch_size args; pretrained := pretrained args;
     num_workers := num_workers args; cuda := cuda args;
     save_folder := save_folder args; tensorboard := c;
     log_folder := log_folder args; log_name := log_name args;
     tensorboard_log := tensorboard_log args; lr := lr args;
     epochs := epochs args; num_classes := num_classes args;
     image_size := image_size args;
     accumulation_steps := accumulation_steps args; resume := resume args |}.

Definition with_basenet (args : Args) (b : string) : Args :=
  {| dataset := dataset args; dataset_root := dataset_root args;
     basenet := b; depth := depth args;
     batch_size := batch_size args; pretrained := pretrained args;
     num_workers := num_workers args; cuda := cuda args;
     save_folder := save_folder args; tensorboard := tensorboard args;
     log_folder := log_folder args; log_name := log_name args;
     tensorboard_log := tensorboard_log args; lr := lr args;
     epochs := epochs args; num_classes := num_classes args;
     image_size := image_size args;
     accumulation_steps := accumulation_steps args; resume := resume args |}.

(* ------------------------------------------------------------------ *)
(** ** The start-up of an accepted run, written out *)

(** The events that place the model (lines 179-184). *)
Definition placement_events (env : Env) (args : Args) : list event :=
  if Py.truthy (cuda args)
  then (if cuda_is_available env then [ModelCuda; DataParallel; ModelCuda] else [])
  else [DataParallel].

(** The events that fill the weights of the model (lines 187-198). *)
Definition weights_loading_events (args : Args) : list event :=
  match resume args with
  | None => [Print "Initializing weights..."; ApplyWeightsInit]
  | Some file =>
      if String.eqb file "" then []
      else [Print "Loading weights into state dict...";
            LoadStateDict (OsPath.join (save_folder args) file)]
  end.

(** The events of [train] before the epoch loop (lines 134-216). *)
Definition setup_trace (env : Env) (args : Args) : list event :=
  (if Py.truthy (tensorboard args)
   then [SummaryWriter (tensorboard_log args)]
   else [])
  ++ [MakeDataset (dataset args) (dataset_root args) (image_size args);
      MakeDataLoader (batch_size args) (num_workers args);
      MakeModel (num_classes args) (pretrained args)]
  ++ placement_events env args
  ++ weights_loading_events args
  ++ [ModelTrain; MakeOptimizer (lr args); MakeCriterion; MakeScheduler 3;
      Print ("len(dataset): " ++ Py.str (dataset_len env)
             ++ ", iter_size: "
             ++ Py.str (dataset_len env / batch_size args));
      LogArgs].

(* ------------------------------------------------------------------ *)
(** ** [weights_init] (lines 285-293) *)

(** The class of a module, as the [isinstance] tests of [weights_init] see it. *)
Inductive module_class : Type :=
| Conv2d
| BatchNorm2d
| Linear
| OtherClass (name : string).

(** A module of the network: its class, a name and its children. *)
Inductive nn_module : Type :=
| Mod (cls : module_class) (name : string) (children : list nn_module).

Definition class_of (m : nn_module) : module_class :=
  match m with
  | Mod c _ _ => c
  end.

Definition name_of (m : nn_module) : string :=
  match m with
  | Mod _ n _ => n
  end.

(** The calls into [nn.init]: the module and the parameter they fill. *)
Inductive init_op : Type :=
| normal_ (module param : string) (mean std : Q)
| constant_ (module param : string) (v : Q)
| kaiming_normal_ (module param : string).

Definition weights_init (m : nn_module) : list init_op :=
  match class_of m with
  | Conv2d => [normal_ (name_of m) "weight" 0 (2 # 100)]
  | BatchNorm2d =>
      [normal_ (name_of m) "weight" 1 (2 # 100);
       constant_ (name_of m) "bias" 0]
  | Linear =>
      [kaiming_normal_ (name_of m) "weight";
       constant_ (name_of m) "bias" 0]
  | OtherClass _ => []
  end.

(** [nn.Module.apply(fn)]: [fn] on every child, recursively, then on the
    module itself. *)
Fixpoint apply (fn : nn_module -> list init_op) (m : nn_module) : list init_op :=
  match m with
  | Mod _ _ children => flat_map (apply fn) children ++ fn m
  end.

(** The modules of a tree, the module itself included. *)
Fixpoint modules (m : nn_module) : list nn_module :=
  match m with
  | Mod _ _ children => flat_map modules children ++ [m]
  end.

Definition is_class (c : module_class) (m : nn_module) : bool :=
  match c, class_of m with
  | Conv2d, Conv2d | BatchNorm2d, BatchNorm2d | Linear, Linear => true
  | _, _ => false
  end.

Definition count_class (c : module_class) (m : nn_module) : nat :=
  List.length (filter (is_class c) (modules m)).

(** The module and the parameter an [nn.init] call fills. *)
Definition target (op : init_op) : string * string :=
  match op with
  | normal_ m p _ _ => (m, p)
  | constant_ m p _ => (m, p)
  | kaiming_normal_ m p => (m, p)
  end.

(** The calls [weights_init] makes: a weight is drawn from a normal law of
    deviation 0.02 or by the Kaiming rule, a bias is set to zero. *)
Definition expected_init (op : init_op) : Prop :=
  match op with
  | normal_ _ p mean std =>
      p = "weight" /\ (mean == 0 \/ mean == 1) /\ std == 2 # 100
  | constant_ _ p v => p = "bias" /\ v == 0
  | kaiming_normal_ _ p => p = "weight"
  end.

(** A small network: two convolutions, a batch normalisation, an activation
    and a classifier, wrapped as [DataParallel] wraps them. *)
Definition sample_model : nn_module :=
  Mod (OtherClass "DataParallel") "module"
      [Mod (OtherClass "Sequential") "features"
           [Mod Conv2d "features.0" [];
            Mod BatchNorm2d "features.1" [];
            Mod (OtherClass "ReLU") "features.2" [];
            Mod Conv2d "features.3" []];
       Mod Linear "classifier" []].

(* ------------------------------------------------------------------ *)
(** ** The built-ins on examples *)

Example splitext_plain : OsPath.splitext "weights.txt" = ("weights", ".txt").
Proof. reflexivity. Qed.

Example splitext_last_dot : OsPath.splitext "run.v2/model.tar.pth" = ("run.v2/model.tar", ".pth").
Proof. reflexivity. Qed.

Example splitext_dot_file : OsPath.splitext "ckpt/.hidden" = ("ckpt/.hidden", "").
Proof. reflexivity. Qed.

Example splitext_no_ext : OsPath.splitext "run.v2/model" = ("run.v2/model", "").
Proof. reflexivity. Qed.

Example join_plain : OsPath.join "checkpoints" "m.pth" = "checkpoints/m.pth".
Proof. reflexivity. Qed.

Example join_trailing_sep : OsPath.join "checkpoints/" "m.pth" = "checkpoints/m.pth".
Proof. reflexivity. Qed.

Example join_absolute : OsPath.join "checkpoints" "/tmp/m.pth" = "/tmp/m.pth".
Proof. reflexivity. Qed.

Example str_examples : (Py.str 16, Py.str 0, Py.str (-3)) = ("16", "0", "-3").
Proof. reflexivity. Qed.

Example supported_ext_txt : supported_ext ".txt" = Py.VStr ".pth".
Proof. reflexivity. Qed.

Example supported_ext_pkl : supported_ext ".pkl" = Py.VBool true.
Proof. reflexivity. Qed.

Example sample_run_returns :
  outcome_of (train sample_env (with_epochs sample_args 1))
  = Return (Finite (4 # 6), Finite (12 # 48)).
Proof. reflexivity. Qed.

Example sample_run_saves :
  saves (trace_of (train sample_env sample_args))
  = ["checkpoints/pets_vgg16.pth"; "checkpoints/pets_vgg16.pth";
     "checkpoints/pets_vgg16.pth"; "checkpoints/pets_vgg16.pth";
     "checkpoints/pets_vgg16.pth"; "checkpoints/pets_vgg16_5.pth";
     "checkpoints/pets_vgg16.pth"; "checkpoints/pets_vgg16.pth"].
Proof. reflexivity. Qed.

(* ------------------------------------------------------------------ *)
(** ** Basic facts on observations *)

Section Observe.

Context {A : Type} (f : event -> option A).

Lemma observe_app (t u : list event) :
  observe f (t ++ u) = observe f t ++ observe f u.
Proof.
  induction t as [|e t IH]; simpl; [reflexivity|].
  destruct (f e); simpl; now rewrite IH.
Qed.

Lemma observe_none (t : list event) :
  Forall (fun e => f e = None) t -> observe f t = [].
Proof.
  induction 1 as [|e t He _ IH]; simpl; [reflexivity|].
  now rewrite He.
Qed.

Lemma observe_In (t : list event) (a : A) :
  In a (observe f t) <-> exists e, In e t /\ f e = Some a.
Proof.
  induction t as [|e t IH]; simpl.
  - split; [contradiction | intros (e & [] & _)].
  - destruct (f e) as [b|] eqn:Fe; simpl; rewrite IH; split.
    + intros [<- | (e' & He' & Fe')]; eauto.
    + intros (e' & [<- | He'] & Fe'); eauto.
      left; congruence.
    + intros (e' & He' & Fe'); eauto.
    + intros (e' & [<- | He'] & Fe'); eauto. congruence.
Qed.

End Observe.

Lemma phases_app (t u : list event) : phases (t ++ u) = phases t ++ phases u.
Proof. apply observe_app. Qed.

Lemma saves_app (t u : list event) : saves (t ++ u) = saves t ++ saves u.
Proof. apply observe_app. Qed.

Lemma scheduler_steps_app (t u : list event) :
  scheduler_steps (t ++ u) = scheduler_steps t ++ scheduler_steps u.
Proof. apply observe_app. Qed.

(** A setup event is no step of an iteration, no checkpoint write, no
    scheduler step and no directory creation. *)
Lemma setup_event_silent (t : list event) :
  Forall (fun e => setup_event e = true) t ->
  phases t = [] /\ saves t = [] /\ scheduler_steps t = []
  /\ observe made_dir t = [].
Proof.
  intros H; repeat split; apply observe_none;
    (eapply Forall_impl; [|exact H]); intros [] E; simpl in *;
    reflexivity || discriminate.
Qed.

Lemma Forall_cons_true {A : Type} (p : A -> bool) (x : A) (l : list A) :
  p x = true -> Forall (fun e => p e = true) l ->
  Forall (fun e => p e = true) (x :: l).
Proof. intros; now constructor. Qed.

(* ------------------------------------------------------------------ *)
(** ** The shape of a run of [train] *)

(** [supported_ext] is a true value whatever the extension: its second
    operand is a non-empty string. *)
Lemma supported_ext_truthy (ext : string) :
  Py.truthy (supported_ext ext) = true.
Proof.
  unfold supported_ext, Py.or_; simpl.
  destruct (String.eqb ext ".pkl"); reflexivity.
Qed.

#[local] Ltac split_ifs :=
  repeat match goal with
         | |- context [if ?c then _ else _] => destruct c eqn:?
         | |- context [match ?o with Some _ => _ | None => _ end] =>
             destruct o eqn:?
         | |- context [OsPath.splitext ?p] => destruct (OsPath.splitext p) eqn:?
         end.

#[local] Ltac setup_events :=
  cbn [app];
  repeat first [ apply Forall_nil | apply Forall_cons_true; [reflexivity|] ].

(** Either [train] stops with an exception during start-up, or it returns the
    two averages after a trace made of the start-up, the epoch loop and the
    closing. *)
Lemma train_shape (env : Env) (args : Args) :
  (exists e, outcome_of (train env args) = Raise e
             /\ Forall (fun ev => setup_event ev = true)
                       (trace_of (train env args)))
  \/
  (exists pre post,
      let st_t := epoch_loop env args initial_state (range (epochs args)) in
      train env args
      = (pre ++ snd st_t ++ post,
         Return (avg (top1 (fst st_t)), avg (losses (fst st_t))))
      /\ Forall (fun ev => setup_event ev = true) pre
      /\ Forall (fun ev => setup_event ev = true) post).
Proof.
  unfold train, ready_dataset, define_model, place_model, loading_weights,
    floordiv, when, emit, emits, raise, ret, bind, outcome_of, trace_of.
  destruct (epoch_loop env args initial_state (range (epochs args)))
    as [st t] eqn:Eloop.
  split_ifs; cbn [fst snd app];
    try (left; eexists; split; [reflexivity | setup_events]; fail).
  all: right.
  all: match goal with
       | |- exists pre post, (?l, _) = _ /\ _ =>
           let rec go l acc :=
             lazymatch l with
             | ?e :: ?r => go r (acc ++ [e])
             | _ ++ ?post => exists acc, post
             end
           in go l (@nil event)
       end.
  all: split; [reflexivity | split; setup_events].
Qed.

Lemma opt_neqb_false (a b : option string) :
  Py.opt_neqb a b = false -> a = b.
Proof.
  unfold Py.opt_neqb, Py.opt_eqb.
  destruct a as [x|], b as [y|]; simpl; try discriminate; try reflexivity.
  intros H; apply negb_false_iff, String.eqb_eq in H; now subst.
Qed.

Lemma opt_eqb_true (a b : option string) :
  Py.opt_eqb a b = true <-> a = b.
Proof.
  unfold Py.opt_eqb; destruct a as [x|], b as [y|]; split;
    try discriminate; try reflexivity.
  - intros H; apply String.eqb_eq in H; now subst.
  - intros [= ->]; apply String.eqb_refl.
Qed.

(* ------------------------------------------------------------------ *)
(** ** Configuration errors *)

(** C1.  With the dataset one of the two choices, if the dataset root is
    missing or is not the path required for that dataset, or the depth is not
    16, or the base model is not 'vgg', then [train] ends by raising a
    ValueError carrying one of the script's messages, and its trace holds no
    event of the epoch loop: no training iteration has run. *)
Theorem train_rejects_bad_configuration (env : Env) (args : Args) :
  dataset args = "CIFAR10" \/ dataset args = "pets" ->
  dataset_root args = None
  \/ dataset_root args <> Some (required_root env args)
  \/ depth args <> 16%Z
  \/ basenet args <> "vgg" ->
  exists msg,
    outcome_of (train env args) = Raise (ValueError msg)
    /\ In msg config_error_messages
    /\ Forall (fun ev => loop_event ev = false) (trace_of (train env args))
    /\ phases (trace_of (train env args)) = [].
Proof.
  intros Hds Hbad.
  unfold train, ready_dataset, define_model, place_model, loading_weights,
    floordiv, when, emit, emits, raise, ret, bind, outcome_of, trace_of,
    required_root in *.
  destruct (epoch_loop env args initial_state (range (epochs args)))
    as [st t].
  destruct (String.eqb (dataset args) "CIFAR10") eqn:Ec;
    [|destruct (String.eqb (dataset args) "pets") eqn:Ep].
  3: { apply String.eqb_neq in Ec, Ep; tauto. }
  all: destruct (Py.opt_neqb (dataset_root args) _) eqn:Er;
    [ destruct (Py.truthy (tensorboard args)); cbn;
      eexists; (split; [reflexivity|]); (split; [simpl; tauto|]);
      (split; [repeat constructor | reflexivity]) |].
  all: apply opt_neqb_false in Er.
  all: destruct (String.eqb (basenet args) "vgg") eqn:Eb;
    [ destruct (depth args =? 16)%Z eqn:Ed | ].
  all: try (apply String.eqb_eq in Eb); try (apply Z.eqb_eq in Ed).
  1, 4: exfalso; rewrite Er in Hbad;
    destruct Hbad as [H | [H | [H | H]]];
    [discriminate H | now apply H | now apply H | now apply H].
  all: rewrite Er; cbn; destruct (Py.truthy (tensorboard args)); cbn;
    eexists; (split; [reflexivity|]); (split; [simpl; tauto|]);
    (split; [repeat constructor | reflexivity]).
Qed.

Lemma train_rejects_bad_configuration_witness :
  exists msg,
    outcome_of (train sample_env (with_depth sample_args 17))
    = Raise (ValueError msg)
    /\ In msg config_error_messages
    /\ Forall (fun ev => loop_event ev = false)
              (trace_of (train sample_env (with_depth sample_args 17)))
    /\ phases (trace_of (train sample_env (with_depth sample_args 17))) = [].
Proof.
  apply (train_rejects_bad_configuration sample_env (with_depth sample_args 17)).
  - right; reflexivity.
  - right; right; left; simpl; lia.
Defined.


(** Whatever the name of the resume file, a non-empty name makes step 6 read
    the file: the test of its extension never fails. *)
Lemma loading_weights_reads_any_file (args : Args) (file : string) :
  resume args = Some file ->
  file <> "" ->
  loading_weights args
  = ([Print "Loading weights into state dict...";
      LoadStateDict (OsPath.join (save_folder args) file)], Return tt).
Proof.
  intros Hr Hne; unfold loading_weights; rewrite Hr; simpl.
  apply String.eqb_neq in Hne; rewrite Hne; simpl.
  destruct (OsPath.splitext file) as [other ext].
  now rewrite supported_ext_truthy.
Qed.


(* ------------------------------------------------------------------ *)
(** ** The batch loop *)

Lemma batch_event_silent (t : list event) :
  Forall (fun e => batch_event e = true) t ->
  saves t = [] /\ scheduler_steps t = [] /\ observe made_dir t = []
  /\ Forall (fun e => loop_event e = true) t.
Proof.
  intros H; repeat split; try apply observe_none;
    (eapply Forall_impl; [|exact H]); intros [] E; simpl in *;
    reflexivity || discriminate.
Qed.

(** The trace of one iteration, written out. *)
Lemma train_batch_trace (env : Env) (args : Args) (epoch : nat)
      (st : loop_state) (d : batch) :
  let it := S (iteration st) in
  let n := Z.of_nat (List.length (images d)) in
  let outputs := model_forward env it (images d) in
  let loss0 := cross_entropy env outputs (targets d) in
  let loss := scalar_div_int loss0 (accumulation_steps args) in
  let acc1 := accuracy outputs (targets d) in
  snd (train_batch env args epoch st d)
  = (if Py.truthy (cuda args) then [ToCuda] else [])
    ++ [ZeroGrad; Forward it]
    ++ (if Py.truthy (cuda args) then [CriterionCuda] else [])
    ++ [Criterion loss0; Backward loss; OptimizerStep;
        MeterUpdate Top1 acc1 n; MeterUpdate Losses loss n]
    ++ (if Py.truthy (tensorboard args)
        then [AddScalar "train_classification_loss" loss it]
        else [])
    ++ [LogInfo epoch it acc1 loss (avg (update (losses st) loss n))].
Proof.
  unfold train_batch; cbn [snd].
  now rewrite Nat.mod_1_r.
Qed.

Lemma train_batch_state (env : Env) (args : Args) (epoch : nat)
      (st : loop_state) (d : batch) :
  let it := S (iteration st) in
  let n := Z.of_nat (List.length (images d)) in
  let outputs := model_forward env it (images d) in
  let loss := scalar_div_int (cross_entropy env outputs (targets d))
                             (accumulation_steps args) in
  fst (train_batch env args epoch st d)
  = {| iteration := it;
       top1 := update (top1 st) (accuracy outputs (targets d)) n;
       losses := update (losses st) loss n |}.
Proof. reflexivity. Qed.

Lemma train_batch_events (env : Env) (args : Args) (epoch : nat)
      (st : loop_state) (d : batch) :
  Forall (fun e => batch_event e = true) (snd (train_batch env args epoch st d)).
Proof.
  rewrite train_batch_trace.
  destruct (Py.truthy (cuda args)), (Py.truthy (tensorboard args));
    repeat constructor.
Qed.

Lemma train_batch_phases (env : Env) (args : Args) (epoch : nat)
      (st : loop_state) (d : batch) :
  phases (snd (train_batch env args epoch st d)) = batch_phases.
Proof.
  rewrite train_batch_trace.
  destruct (Py.truthy (cuda args)), (Py.truthy (tensorboard args));
    reflexivity.
Qed.

Lemma batch_loop_cons (env : Env) (args : Args) (epoch : nat)
      (st : loop_state) (d : batch) (rest : list batch) :
  batch_loop env args epoch st (d :: rest)
  = (fst (batch_loop env args epoch
                     (fst (train_batch env args epoch st d)) rest),
     snd (train_batch env args epoch st d)
     ++ snd (batch_loop env args epoch
                        (fst (train_batch env args epoch st d)) rest)).
Proof.
  cbn [batch_loop].
  destruct (train_batch env args epoch st d) as [st1 t1].
  cbn [fst snd].
  now destruct (batch_loop env args epoch st1 rest).
Qed.

Lemma batch_loop_events (env : Env) (args : Args) (epoch : nat)
      (data : list batch) (st : loop_state) :
  Forall (fun e => batch_event e = true) (snd (batch_loop env args epoch st data)).
Proof.
  revert st; induction data as [|d rest IH]; intros st.
  - constructor.
  - rewrite batch_loop_cons; cbn [snd].
    apply Forall_app; split; [apply train_batch_events | apply IH].
Qed.

Lemma batch_loop_phases (env : Env) (args : Args) (epoch : nat)
      (data : list batch) (st : loop_state) :
  phases (snd (batch_loop env args epoch st data))
  = flat_map (fun _ => batch_phases) data.
Proof.
  revert st; induction data as [|d rest IH]; intros st.
  - reflexivity.
  - rewrite batch_loop_cons; cbn [snd flat_map].
    now rewrite phases_app, IH, train_batch_phases.
Qed.

(** The meters and the iteration counter do not depend on the epoch number
    the iterations are logged under. *)
Lemma batch_loop_state_epoch (env : Env) (args : Args) (e1 e2 : nat)
      (data : list batch) (st : loop_state) :
  fst (batch_loop env args e1 st data) = fst (batch_loop env args e2 st data).
Proof.
  revert st; induction data as [|d rest IH]; intros st.
  - reflexivity.
  - rewrite !batch_loop_cons; cbn [fst].
    rewrite !train_batch_state. apply IH.
Qed.

Lemma batch_loop_state_app (env : Env) (args : Args) (epoch : nat)
      (d1 d2 : list batch) (st : loop_state) :
  fst (batch_loop env args epoch st (d1 ++ d2))
  = fst (batch_loop env args epoch
                    (fst (batch_loop env args epoch st d1)) d2).
Proof.
  revert st; induction d1 as [|d rest IH]; intros st.
  - reflexivity.
  - cbn [app]; rewrite !batch_loop_cons; cbn [fst]. apply IH.
Qed.

(* ------------------------------------------------------------------ *)
(** ** The epoch loop *)

(** The trace of one epoch, written out. *)
Lemma train_epoch_trace (env : Env) (args : Args) (st : loop_state) (e : nat) :
  let b := batch_loop env args e st (dataloader env e) in
  train_epoch env args st e
  = (fst b,
     EmptyCache :: snd b
       ++ SchedulerStep (avg (losses (fst b)))
       :: PrintEpochFinished e :: save_model args e).
Proof.
  unfold train_epoch.
  now destruct (batch_loop env args e st (dataloader env e)).
Qed.

Lemma epoch_loop_cons (env : Env) (args : Args)
      (st : loop_state) (e : nat) (rest : list nat) :
  epoch_loop env args st (e :: rest)
  = (fst (epoch_loop env args (fst (train_epoch env args st e)) rest),
     snd (train_epoch env args st e)
     ++ snd (epoch_loop env args (fst (train_epoch env args st e)) rest)).
Proof.
  cbn [epoch_loop].
  destruct (train_epoch env args st e) as [st1 t1].
  cbn [fst snd].
  now destruct (epoch_loop env args st1 rest).
Qed.

Lemma save_model_saves (args : Args) (e : nat) :
  saves (save_model args e) = epoch_checkpoints args e.
Proof.
  unfold save_model, epoch_checkpoints.
  now destruct (negb (e =? 0)%nat && (e mod 5 =? 0)%nat).
Qed.

Lemma save_model_silent (args : Args) (e : nat) :
  phases (save_model args e) = []
  /\ scheduler_steps (save_model args e) = []
  /\ observe made_dir (save_model args e) = []
  /\ Forall (fun ev => loop_event ev = true) (save_model args e).
Proof.
  unfold save_model.
  destruct (negb (e =? 0)%nat && (e mod 5 =? 0)%nat);
    repeat split; repeat constructor.
Qed.

Lemma train_epoch_phases (env : Env) (args : Args) (st : loop_state) (e : nat) :
  phases (snd (train_epoch env args st e))
  = flat_map (fun _ => batch_phases) (dataloader env e).
Proof.
  rewrite train_epoch_trace; cbn [snd].
  change (phases (snd (batch_loop env args e st (dataloader env e))
                  ++ [SchedulerStep
                        (avg (losses (fst (batch_loop env args e st
                                                      (dataloader env e))))) ;
                      PrintEpochFinished e]
                  ++ save_model args e)
          = flat_map (fun _ => batch_phases) (dataloader env e)).
  rewrite !phases_app, batch_loop_phases.
  destruct (save_model_silent args e) as (Hp & _).
  rewrite Hp. cbn. now rewrite app_nil_r.
Qed.

Lemma train_epoch_saves (env : Env) (args : Args) (st : loop_state) (e : nat) :
  saves (snd (train_epoch env args st e)) = epoch_checkpoints args e.
Proof.
  rewrite train_epoch_trace; cbn [snd].
  change (saves (snd (batch_loop env args e st (dataloader env e))
                 ++ [SchedulerStep
                       (avg (losses (fst (batch_loop env args e st
                                                     (dataloader env e))))) ;
                     PrintEpochFinished e]
                 ++ save_model args e)
          = epoch_checkpoints args e).
  rewrite !saves_app.
  destruct (batch_event_silent _ (batch_loop_events env args e (dataloader env e) st))
    as (Hs & _).
  rewrite Hs; cbn [app].
  apply save_model_saves.
Qed.

Lemma train_epoch_scheduler_steps (env : Env) (args : Args)
      (st : loop_state) (e : nat) :
  scheduler_steps (snd (train_epoch env args st e))
  = [avg (losses (fst (batch_loop env args e st (dataloader env e))))].
Proof.
  rewrite train_epoch_trace; cbn [snd].
  change (scheduler_steps
            (snd (batch_loop env args e st (dataloader env e))
             ++ [SchedulerStep
                   (avg (losses (fst (batch_loop env args e st
                                                 (dataloader env e)))))]
             ++ PrintEpochFinished e :: save_model args e)
          = [avg (losses (fst (batch_loop env args e st (dataloader env e))))]).
  rewrite !scheduler_steps_app.
  destruct (batch_event_silent _ (batch_loop_events env args e (dataloader env e) st))
    as (_ & Hs & _).
  rewrite Hs; cbn [app].
  destruct (save_model_silent args e) as (_ & Hm & _).
  change (scheduler_steps (PrintEpochFinished e :: save_model args e))
    with (scheduler_steps (save_model args e)).
  now rewrite Hm.
Qed.

Lemma train_epoch_events (env : Env) (args : Args) (st : loop_state) (e : nat) :
  Forall (fun ev => loop_event ev = true) (snd (train_epoch env args st e)).
Proof.
  rewrite train_epoch_trace; cbn [snd].
  constructor; [reflexivity|].
  apply Forall_app; split.
  - apply batch_event_silent, batch_loop_events.
  - repeat (constructor; [reflexivity|]). apply save_model_silent.
Qed.

Lemma epoch_loop_events (env : Env) (args : Args)
      (es : list nat) (st : loop_state) :
  Forall (fun ev => loop_event ev = true) (snd (epoch_loop env args st es)).
Proof.
  revert st; induction es as [|e rest IH]; intros st.
  - constructor.
  - rewrite epoch_loop_cons; cbn [snd].
    apply Forall_app; split; [apply train_epoch_events | apply IH].
Qed.

Lemma epoch_loop_phases (env : Env) (args : Args)
      (es : list nat) (st : loop_state) :
  phases (snd (epoch_loop env args st es))
  = flat_map (fun _ => batch_phases) (batches_of env es).
Proof.
  revert st; induction es as [|e rest IH]; intros st.
  - reflexivity.
  - rewrite epoch_loop_cons; cbn [snd].
    rewrite phases_app, IH, train_epoch_phases.
    unfold batches_of; cbn [flat_map].
    now rewrite flat_map_app.
Qed.

Lemma epoch_loop_saves (env : Env) (args : Args)
      (es : list nat) (st : loop_state) :
  saves (snd (epoch_loop env args st es))
  = flat_map (epoch_checkpoints args) es.
Proof.
  revert st; induction es as [|e rest IH]; intros st.
  - reflexivity.
  - rewrite epoch_loop_cons; cbn [snd flat_map].
    now rewrite saves_app, IH, train_epoch_saves.
Qed.

(** The state after the epochs [es] is the state after their batches. *)
Lemma epoch_loop_state (env : Env) (args : Args)
      (es : list nat) (st : loop_state) :
  fst (epoch_loop env args st es)
  = fst (batch_loop env args 0 st (batches_of env es)).
Proof.
  revert st; induction es as [|e rest IH]; intros st.
  - reflexivity.
  - rewrite epoch_loop_cons; cbn [fst].
    unfold batches_of; cbn [flat_map].
    rewrite batch_loop_state_app, IH, train_epoch_trace; cbn [fst].
    now rewrite (batch_loop_state_epoch env args e 0).
Qed.

(** Observations that are blind to setup events see, in a run of [train],
    what they see in its epoch loop, and nothing when [train] raises. *)
Lemma train_observe {A : Type} (f : event -> option A)
      (env : Env) (args : Args) :
  (forall e, setup_event e = true -> f e = None) ->
  observe f (trace_of (train env args))
  = match outcome_of (train env args) with
    | Return _ =>
        observe f (snd (epoch_loop env args initial_state (range (epochs args))))
    | Raise _ => []
    end.
Proof.
  intros Hf.
  assert (Hnone : forall t, Forall (fun ev => setup_event ev = true) t ->
                            observe f t = []).
  { intros t Ht; apply observe_none.
    eapply Forall_impl; [|exact Ht]. exact Hf. }
  destruct (train_shape env args) as [(e & Ho & Ht) | (pre & post & Ht & Hpre & Hpost)].
  - rewrite Ho. now apply Hnone.
  - cbv zeta in Ht; rewrite Ht; unfold trace_of, outcome_of; cbn [fst snd].
    rewrite !observe_app, (Hnone _ Hpre), (Hnone _ Hpost).
    cbn [app]. apply app_nil_r.
Qed.

(* ------------------------------------------------------------------ *)
(** ** The resume file *)




(* ------------------------------------------------------------------ *)
(** ** Checkpoint files *)

Local Open Scope nat_scope.

Lemma append_length (a b : string) :
  String.length (a ++ b) = String.length a + String.length b.
Proof. induction a as [|c a IH]; simpl; [reflexivity | now rewrite IH]. Qed.

Lemma append_cancel_l (a x y : string) : (a ++ x = a ++ y)%string -> x = y.
Proof.
  induction a as [|c a IH]; simpl; [exact (fun H => H)|].
  intros [= H]; now apply IH.
Qed.

Lemma append_cancel_r (c x y : string) : (x ++ c = y ++ c)%string -> x = y.
Proof.
  revert y; induction x as [|a x IH]; intros [|b y] H; simpl in H.
  - reflexivity.
  - apply (f_equal String.length) in H; simpl in H.
    rewrite append_length in H; lia.
  - apply (f_equal String.length) in H; simpl in H.
    rewrite append_length in H; lia.
  - injection H as -> H. f_equal. now apply IH.
Qed.

(** Distinct numbers have distinct decimal numerals. *)
Lemma str_inj (a b : Z) : Py.str a = Py.str b -> a = b.
Proof.
  unfold Py.str; intros H.
  apply DecimalZ.to_int_inj.
  assert (Hnn : forall z, Z.to_int z <> Decimal.Pos Decimal.Nil
                          /\ Z.to_int z <> Decimal.Neg Decimal.Nil).
  { intros [|p|p]; simpl; split; try discriminate;
      intros [= E]; now apply DecimalPos.Unsigned.to_uint_nonnil in E. }
  apply (f_equal NilZero.int_of_string) in H.
  rewrite !NilZero.isi in H by apply Hnn.
  now injection H.
Qed.

(** The name of an interval checkpoint determines its epoch. *)
Lemma interval_checkpoint_inj (args : Args) (e1 e2 : nat) :
  interval_checkpoint args e1 = interval_checkpoint args e2 -> e1 = e2.
Proof.
  unfold interval_checkpoint, Py.repr; intros H.
  repeat apply append_cancel_l in H.
  apply append_cancel_r, str_inj in H. lia.
Qed.

(** C3, as the code has it.  Every checkpoint file written in an epoch has a
    name made of the save folder, the dataset name, the base model name and
    the depth; the checkpoint of the fixed interval, written when the epoch
    is a nonzero multiple of 5, also carries the epoch number, which can be
    read back from the name; the checkpoint of the epoch end carries no
    epoch number. *)
Theorem checkpoint_file_names
        (env : Env) (args : Args) (st : loop_state) (e : nat) (p : string) :
  In (Save p) (snd (train_epoch env args st e)) ->
  p = (save_folder args ++ "/" ++ dataset args ++ "_" ++ basenet args
         ++ Py.str (depth args) ++ ".pth")%string
  \/ (p = (save_folder args ++ "/" ++ dataset args ++ "_" ++ basenet args
             ++ Py.str (depth args) ++ "_" ++ Py.repr (Z.of_nat e)
             ++ ".pth")%string
      /\ e <> 0 /\ e mod 5 = 0
      /\ forall e', interval_checkpoint args e' = p -> e' = e).
Proof.
  intros H.
  assert (Hp : In p (saves (snd (train_epoch env args st e)))).
  { apply observe_In. exists (Save p). now split. }
  rewrite train_epoch_saves in Hp. unfold epoch_checkpoints in Hp.
  destruct (negb (e =? 0)%nat && (e mod 5 =? 0)%nat) eqn:E; simpl in Hp.
  - apply andb_true_iff in E. destruct E as [E0 E5].
    apply negb_true_iff, Nat.eqb_neq in E0. apply Nat.eqb_eq in E5.
    destruct Hp as [<- | [<- | []]].
    + right. repeat split; try assumption.
      intros e'. apply interval_checkpoint_inj.
    + now left.
  - destruct Hp as [<- | []]. now left.
Qed.

Lemma checkpoint_file_names_witness :
  "checkpoints/pets_vgg16_5.pth" = "checkpoints/pets_vgg16.pth"
  \/ ("checkpoints/pets_vgg16_5.pth" = "checkpoints/pets_vgg16_5.pth"
      /\ 5 <> 0 /\ 5 mod 5 = 0
      /\ forall e', interval_checkpoint sample_args e'
                    = "checkpoints/pets_vgg16_5.pth" -> e' = 5).
Proof.
  apply (checkpoint_file_names sample_env sample_args initial_state 5
                               "checkpoints/pets_vgg16_5.pth").
  vm_compute. tauto.
Defined.

(** C3, as the spec has it, fails: in the sample run the name written at the
    end of epoch 1 is also the name written at the end of epoch 2, and it is
    not the name that carries the epoch number. *)
Lemma checkpoint_name_counterexample :
  In (Save "checkpoints/pets_vgg16.pth")
     (snd (train_epoch sample_env sample_args initial_state 1))
  /\ In (Save "checkpoints/pets_vgg16.pth")
        (snd (train_epoch sample_env sample_args initial_state 2))
  /\ "checkpoints/pets_vgg16.pth" <> interval_checkpoint sample_args 1
  /\ ~ (forall e p,
          In (Save p) (snd (train_epoch sample_env sample_args initial_state e)) ->
          p = interval_checkpoint sample_args e).
Proof.
  assert (H1 : In (Save "checkpoints/pets_vgg16.pth")
                  (snd (train_epoch sample_env sample_args initial_state 1))).
  { vm_compute. tauto. }
  assert (Hne : "checkpoints/pets_vgg16.pth" <> interval_checkpoint sample_args 1).
  { vm_compute. discriminate. }
  repeat split; try assumption.
  - vm_compute. tauto.
  - intros H. apply Hne. now apply H.
Qed.

(** C4.  Every epoch ends with the write of the epoch-end checkpoint: it is
    the last event of the epoch.  The checkpoints of an epoch are that one,
    preceded by the interval checkpoint exactly when the epoch is a nonzero
    multiple of 5; so no epoch goes without a checkpoint write, and a run of
    [train] that returns has written the checkpoints of each of its epochs,
    in order. *)
Theorem checkpoint_at_every_epoch_end
        (env : Env) (args : Args) (st : loop_state) (e : nat) :
  (exists t0,
      snd (train_epoch env args st e) = t0 ++ [Save (epoch_end_checkpoint args)])
  /\ saves (snd (train_epoch env args st e))
     = (if negb (e =? 0) && (e mod 5 =? 0)
        then [interval_checkpoint args e]
        else [])
       ++ [epoch_end_checkpoint args]
  /\ saves (snd (train_epoch env args st e)) <> []
  /\ saves (trace_of (train env args))
     = match outcome_of (train env args) with
       | Return _ => flat_map (epoch_checkpoints args) (range (epochs args))
       | Raise _ => []
       end.
Proof.
  split; [|split; [|split]].
  - rewrite train_epoch_trace; cbn [snd]. unfold save_model.
    destruct (negb (e =? 0) && (e mod 5 =? 0)).
    + eexists (EmptyCache :: _ ++ [_; _; _; _]).
      cbn [app]. rewrite <- app_assoc. reflexivity.
    + eexists (EmptyCache :: _ ++ [_; _]).
      cbn [app]. rewrite <- app_assoc. reflexivity.
  - apply train_epoch_saves.
  - rewrite train_epoch_saves. unfold epoch_checkpoints.
    destruct (negb (e =? 0) && (e mod 5 =? 0)); discriminate.
  - unfold saves at 1. rewrite train_observe.
    + destruct (outcome_of (train env args)); [|reflexivity].
      apply epoch_loop_saves.
    + now intros [].
Qed.

(** C10.  The last event of every epoch is the write of one and the same
    file, whose name is made of the save folder, the dataset, the base model
    and the depth, and does not depend on the epoch: the write at the end of
    an epoch goes to the path of the write at the end of any other. *)
Theorem epoch_end_checkpoint_path_is_fixed
        (env : Env) (args : Args) (st1 st2 : loop_state) (e1 e2 : nat) :
  last (snd (train_epoch env args st1 e1)) EmptyCache
  = Save (save_folder args ++ "/" ++ dataset args ++ "_" ++ basenet args
            ++ Py.str (depth args) ++ ".pth")
  /\ last (snd (train_epoch env args st1 e1)) EmptyCache
     = last (snd (train_epoch env args st2 e2)) EmptyCache.
Proof.
  assert (H : forall st e,
             last (snd (train_epoch env args st e)) EmptyCache
             = Save (epoch_end_checkpoint args)).
  { intros st e. rewrite train_epoch_trace; cbn [snd]. unfold save_model.
    change (EmptyCache :: ?t) with ([EmptyCache] ++ t).
    change (SchedulerStep ?m :: PrintEpochFinished e :: ?t)
      with ([SchedulerStep m; PrintEpochFinished e] ++ t).
    rewrite !app_assoc. apply last_last. }
  split; [apply H | now rewrite !H].
Qed.

(* ------------------------------------------------------------------ *)
(** ** The schedule step *)

Lemma epoch_loop_scheduler_steps_length (env : Env) (args : Args)
      (es : list nat) (st : loop_state) :
  List.length (scheduler_steps (snd (epoch_loop env args st es)))
  = List.length es.
Proof.
  revert st; induction es as [|e rest IH]; intros st.
  - reflexivity.
  - rewrite epoch_loop_cons; cbn [snd].
    rewrite scheduler_steps_app, length_app, IH, train_epoch_scheduler_steps.
    reflexivity.
Qed.

(** C5.  In every epoch the trace is: the cache release, the whole batch
    loop, the schedule step, then events that belong neither to an iteration
    nor to the scheduler.  The schedule step is thus taken once, after the
    batch loop, and its argument is the average held by the loss meter at the
    exit of that loop.  A run of [train] that returns has taken as many
    schedule steps as it has epochs. *)
Theorem schedule_step_once_per_epoch
        (env : Env) (args : Args) (st : loop_state) (e : nat) :
  let b := batch_loop env args e st (dataloader env e) in
  (exists rest,
      snd (train_epoch env args st e)
      = EmptyCache :: snd b ++ SchedulerStep (avg (losses (fst b))) :: rest
      /\ phases rest = [] /\ scheduler_steps rest = [])
  /\ phases (snd b) = flat_map (fun _ => batch_phases) (dataloader env e)
  /\ scheduler_steps (snd b) = []
  /\ scheduler_steps (snd (train_epoch env args st e)) = [avg (losses (fst b))]
  /\ fst (train_epoch env args st e) = fst b
  /\ List.length (scheduler_steps (trace_of (train env args)))
     = match outcome_of (train env args) with
       | Return _ => List.length (range (epochs args))
       | Raise _ => 0
       end.
Proof.
  intros b; subst b.
  destruct (save_model_silent args e) as (Hp & Hs & _).
  repeat split.
  - eexists; split; [|split].
    + rewrite train_epoch_trace; cbn [snd]. reflexivity.
    + exact Hp.
    + exact Hs.
  - apply batch_loop_phases.
  - apply batch_event_silent, batch_loop_events.
  - apply train_epoch_scheduler_steps.
  - now rewrite train_epoch_trace.
  - unfold scheduler_steps at 1. rewrite train_observe.
    + destruct (outcome_of (train env args)); [|reflexivity].
      apply epoch_loop_scheduler_steps_length.
    + now intros [].
Qed.

(* ------------------------------------------------------------------ *)
(** ** The steps of an iteration *)

(** C6.  The steps of every iteration are, in this order and once each:
    gradient zeroing, forward pass, loss computation, backward pass,
    optimizer step, then the update of the accuracy meter and of the loss
    meter.  The steps of an epoch loop are this sequence repeated for each of
    its batches, and so are those of a run of [train] that returns. *)
Theorem iteration_steps_in_order (env : Env) (args : Args) :
  NoDup batch_phases
  /\ (forall epoch st d,
         phases (snd (train_batch env args epoch st d)) = batch_phases)
  /\ (forall st es,
         phases (snd (epoch_loop env args st es))
         = flat_map (fun _ => batch_phases) (batches_of env es))
  /\ phases (trace_of (train env args))
     = match outcome_of (train env args) with
       | Return _ =>
           flat_map (fun _ => batch_phases)
                    (batches_of env (range (epochs args)))
       | Raise _ => []
       end.
Proof.
  split; [|split; [|split]].
  - unfold batch_phases.
    repeat (constructor;
            [simpl; intros H;
             repeat (destruct H as [H | H]; [discriminate H|]); exact H|]).
    constructor.
  - intros; apply train_batch_phases.
  - intros; apply epoch_loop_phases.
  - unfold phases at 1. rewrite train_observe.
    + destruct (outcome_of (train env args)); [|reflexivity].
      apply epoch_loop_phases.
    + now intros [].
Qed.

(* ------------------------------------------------------------------ *)
(** ** Gradient accumulation *)

Lemma backwards_per_step_batches {A : Type} (data : list A) :
  backwards_per_step (flat_map (fun _ => batch_phases) data) 0
  = map (fun _ => 1) data.
Proof.
  induction data as [|d rest IH]; [reflexivity|].
  cbn [flat_map map]. unfold batch_phases at 1.
  cbn [app backwards_per_step]. now rewrite IH.
Qed.

(** C8.  Whatever the value [k] of accumulation_steps: every iteration takes
    its optimizer step, right after its backward pass; the only use of [k] is
    as the divisor of the loss handed to the backward pass; and along an
    epoch loop every optimizer step applies the gradients of exactly one
    backward pass, that of its own batch. *)
Theorem optimizer_steps_on_every_batch (env : Env) (args : Args) (k : Z) :
  let args' := with_accumulation_steps args k in
  (forall epoch st d,
      phases (snd (train_batch env args' epoch st d)) = batch_phases
      /\ observe backward_loss (snd (train_batch env args' epoch st d))
         = [scalar_div_int
              (cross_entropy env
                 (model_forward env (S (iteration st)) (images d))
                 (targets d))
              k])
  /\ (forall st es,
         phases (snd (epoch_loop env args' st es))
         = phases (snd (epoch_loop env args st es))
         /\ backwards_per_step (phases (snd (epoch_loop env args' st es))) 0
            = map (fun _ => 1) (batches_of env es)).
Proof.
  intros args'; split.
  - intros epoch st d; split; [apply train_batch_phases|].
    rewrite train_batch_trace.
    destruct (Py.truthy (cuda args')), (Py.truthy (tensorboard args'));
      reflexivity.
  - intros st es; split.
    + now rewrite !epoch_loop_phases.
    + rewrite epoch_loop_phases. apply backwards_per_step_batches.
Qed.

(* ------------------------------------------------------------------ *)
(** ** The save folder *)

Lemma loop_event_no_mkdir (t : list event) :
  Forall (fun e => loop_event e = true) t -> observe made_dir t = [].
Proof.
  intros H; apply observe_none.
  eapply Forall_impl; [|exact H]. intros [] E; simpl in *;
    reflexivity || discriminate.
Qed.

(** C9.  Whatever the save folder and whether or not it exists, the test
    [os.path.exists(args.save_folder) is None] is false, the module-level
    statements make no directory, and neither does the rest of the script. *)
Theorem save_folder_never_created (env : Env) (args : Args) :
  Py.is_None (os_path_exists env (save_folder args)) = false
  /\ observe made_dir (module_setup env args) = []
  /\ observe made_dir (trace_of (script env args)) = [].
Proof.
  assert (Hsetup : observe made_dir (module_setup env args) = []).
  { unfold module_setup.
    destruct (cuda_is_available env), (Py.truthy (cuda args)); reflexivity. }
  assert (Htrain : observe made_dir (trace_of (train env args)) = []).
  { rewrite train_observe by now intros [].
    destruct (outcome_of (train env args)); [|reflexivity].
    apply loop_event_no_mkdir, epoch_loop_events. }
  split; [reflexivity | split; [exact Hsetup|]].
  unfold script, emits, emit, bind, trace_of in *.
  destruct (train env args) as [t [r|e]]; cbn [fst snd] in *;
    rewrite !observe_app, Hsetup, Htrain; reflexivity.
Qed.

(* ------------------------------------------------------------------ *)
(** ** The accuracy meter *)

(** [argmax_from] returns an index of a greatest score: with [pre] the scores
    already scanned, [best] the index of a greatest one among them. *)
Lemma argmax_from_greatest (xs pre : list Q) (best : nat) (bestv : Q) :
  best < List.length pre ->
  nth best pre 0%Q = bestv ->
  (forall j, j < List.length pre -> (nth j pre 0 <= bestv)%Q) ->
  let r := argmax_from xs (List.length pre) best bestv in
  r < List.length (pre ++ xs)
  /\ forall j, j < List.length (pre ++ xs) ->
               (nth j (pre ++ xs) 0 <= nth r (pre ++ xs) 0)%Q.
Proof.
  revert pre best bestv; induction xs as [|x xs IH];
    intros pre best bestv Hb Hv Hmax; cbn [argmax_from].
  - rewrite app_nil_r; split; [exact Hb|].
    intros j Hj; rewrite Hv; now apply Hmax.
  - replace (pre ++ x :: xs) with ((pre ++ [x]) ++ xs)
      by now rewrite <- app_assoc.
    replace (S (List.length pre)) with (List.length (pre ++ [x]))
      by (rewrite length_app; simpl; lia).
    destruct (Qlt_le_dec bestv x) as [Hlt | Hle].
    + replace (List.length pre) with (List.length (pre ++ [x]) - 1) at 2
        by (rewrite length_app; simpl; lia).
      replace (List.length (pre ++ [x]) - 1) with (List.length pre)
        by (rewrite length_app; simpl; lia).
      apply IH.
      * rewrite length_app; simpl; lia.
      * rewrite app_nth2, Nat.sub_diag by lia. reflexivity.
      * intros j Hj. rewrite length_app in Hj; simpl in Hj.
        destruct (Nat.eq_dec j (List.length pre)) as [-> | Hne].
        -- rewrite app_nth2, Nat.sub_diag by lia. apply Qle_refl.
        -- rewrite app_nth1 by lia.
           apply Qle_trans with bestv; [apply Hmax; lia | now apply Qlt_le_weak].
    + apply IH.
      * rewrite length_app; simpl; lia.
      * now rewrite app_nth1.
      * intros j Hj. rewrite length_app in Hj; simpl in Hj.
        destruct (Nat.eq_dec j (List.length pre)) as [-> | Hne].
        -- rewrite app_nth2, Nat.sub_diag by lia. exact Hle.
        -- rewrite app_nth1 by lia. apply Hmax; lia.
Qed.

(** The highest-scoring class is a class, and no class scores higher. *)
Lemma highest_scoring_greatest (scores : list Q) (k : nat) :
  highest_scoring scores = Some k ->
  k < List.length scores
  /\ forall j, j < List.length scores ->
               (nth j scores 0 <= nth k scores 0)%Q.
Proof.
  destruct scores as [|x xs]; [discriminate|].
  intros [= <-].
  apply (argmax_from_greatest xs [x] 0 x).
  - simpl; lia.
  - reflexivity.
  - intros j Hj; simpl in Hj. replace j with 0 by lia. apply Qle_refl.
Qed.

Lemma meter_holds_new : meter_holds AverageMeter_new 0 0.
Proof.
  exists 0%Q; repeat split; try reflexivity.
Qed.

(** On a non-empty batch the accuracy is the quotient of the number of hits
    by the number of labels. *)
Lemma accuracy_fraction (outputs : list (list Q)) (targets : list Z) :
  targets <> [] ->
  accuracy outputs targets
  = Finite (inject_Z (Z.of_nat (correct_count outputs targets))
            / inject_Z (Z.of_nat (List.length targets))).
Proof.
  intros Hne; unfold accuracy, scalar_div_int.
  destruct targets as [|t ts]; [contradiction|]. reflexivity.
Qed.

Lemma inject_Z_nonzero (n : Z) : n <> 0%Z -> ~ inject_Z n == 0.
Proof.
  intros Hn H. apply Hn.
  unfold Qeq, inject_Z in H; simpl in H. lia.
Qed.

(** One update with the fraction [h / n] and the weight [n]. *)
Lemma update_holds (m : AverageMeter) (s : Q) (c h n : Z) :
  meter_holds m s c -> (0 <= c)%Z -> (0 < n)%Z ->
  meter_holds (update m (Finite (inject_Z h / inject_Z n)) n)
              (s + inject_Z h) (c + n).
Proof.
  intros (q & Hsum & Hq & Hc & _) Hc0 Hn.
  assert (Hn0 : ~ inject_Z n == 0) by (apply inject_Z_nonzero; lia).
  assert (Hcn : ~ inject_Z (c + n) == 0) by (apply inject_Z_nonzero; lia).
  unfold update, meter_holds; cbn [sum count avg val].
  rewrite Hsum, Hc; cbn [scalar_add scalar_mul_int scalar_div_int].
  replace (c + n =? 0)%Z with false by (symmetry; apply Z.eqb_neq; lia).
  eexists; split; [reflexivity|]; split; [|split; [reflexivity|]].
  - rewrite Hq. field. exact Hn0.
  - cbn [scalar_eq]. rewrite Hq. field. split; assumption.
Qed.

Lemma samples_seen_nonneg (data : list batch) : (0 <= samples_seen data)%Z.
Proof. induction data as [|d rest IH]; simpl; lia. Qed.

(** The accuracy meter along the batch loop. *)
Lemma batch_loop_top1 (env : Env) (args : Args) (epoch : nat)
      (data : list batch) (st : loop_state) (h c : Z) :
  Forall well_formed data ->
  meter_holds (top1 st) (inject_Z h) c -> (0 <= c)%Z ->
  meter_holds (top1 (fst (batch_loop env args epoch st data)))
              (inject_Z (h + hits_seen env (iteration st) data))
              (c + samples_seen data).
Proof.
  revert st h c; induction data as [|d rest IH]; intros st h c Hwf Hm Hc.
  - cbn [batch_loop fst hits_seen samples_seen]. now rewrite !Z.add_0_r.
  - inversion Hwf as [|? ? [Hlen Hne] Hrest]; subst.
    rewrite batch_loop_cons; cbn [fst hits_seen samples_seen].
    rewrite !Z.add_assoc.
    assert (Hn : (0 < Z.of_nat (List.length (images d)))%Z).
    { destruct (images d); [contradiction | simpl; lia]. }
    apply IH with (st := fst (train_batch env args epoch st d)); [assumption| |lia].
    rewrite train_batch_state; cbn [top1 iteration].
    rewrite accuracy_fraction, <- Hlen.
    + rewrite inject_Z_plus. now apply update_holds.
    + intros E. rewrite E in Hlen. simpl in Hlen.
      destruct (images d); [contradiction | discriminate].
Qed.

(** [argmax_from] returns the first index of a greatest score: with [pre]
    the scores already scanned and [best] the first index of a greatest one
    among them. *)
Lemma argmax_from_first_greatest (xs pre : list Q) (best : nat) (bestv : Q) :
  best < List.length pre ->
  nth best pre 0%Q = bestv ->
  (forall j, j < List.length pre -> (nth j pre 0 <= bestv)%Q) ->
  (forall j, j < best -> (nth j pre 0 < bestv)%Q) ->
  let r := argmax_from xs (List.length pre) best bestv in
  r < List.length (pre ++ xs)
  /\ (forall j, j < List.length (pre ++ xs) ->
                (nth j (pre ++ xs) 0 <= nth r (pre ++ xs) 0)%Q)
  /\ (forall j, j < r -> (nth j (pre ++ xs) 0 < nth r (pre ++ xs) 0)%Q).
Proof.
  revert pre best bestv; induction xs as [|x xs IH];
    intros pre best bestv Hb Hv Hmax Hfirst; cbn [argmax_from].
  - rewrite app_nil_r; split; [exact Hb|]. split.
    + intros j Hj; rewrite Hv; now apply Hmax.
    + intros j Hj; rewrite Hv; now apply Hfirst.
  - replace (pre ++ x :: xs) with ((pre ++ [x]) ++ xs)
      by now rewrite <- app_assoc.
    replace (S (List.length pre)) with (List.length (pre ++ [x]))
      by (rewrite length_app; simpl; lia).
    destruct (Qlt_le_dec bestv x) as [Hlt | Hle].
    + replace (List.length pre) with (List.length (pre ++ [x]) - 1) at 2
        by (rewrite length_app; simpl; lia).
      replace (List.length (pre ++ [x]) - 1) with (List.length pre)
        by (rewrite length_app; simpl; lia).
      apply IH.
      * rewrite length_app; simpl; lia.
      * rewrite app_nth2, Nat.sub_diag by lia. reflexivity.
      * intros j Hj. rewrite length_app in Hj; simpl in Hj.
        destruct (Nat.eq_dec j (List.length pre)) as [-> | Hne].
        -- rewrite app_nth2, Nat.sub_diag by lia. apply Qle_refl.
        -- rewrite app_nth1 by lia.
           apply Qle_trans with bestv; [apply Hmax; lia | now apply Qlt_le_weak].
      * intros j Hj. rewrite app_nth1 by lia.
        apply Qle_lt_trans with bestv; [apply Hmax; lia | exact Hlt].
    + apply IH.
      * rewrite length_app; simpl; lia.
      * now rewrite app_nth1.
      * intros j Hj. rewrite length_app in Hj; simpl in Hj.
        destruct (Nat.eq_dec j (List.length pre)) as [-> | Hne].
        -- rewrite app_nth2, Nat.sub_diag by lia. exact Hle.
        -- rewrite app_nth1 by lia. apply Hmax; lia.
      * intros j Hj. rewrite app_nth1 by lia. now apply Hfirst.
Qed.

(** The class computed as the highest-scoring one is the first class of
    greatest score. *)
Lemma highest_scoring_first_greatest (scores : list Q) (k : nat) :
  highest_scoring scores = Some k ->
  k < List.length scores
  /\ (forall j, j < List.length scores ->
                (nth j scores 0 <= nth k scores 0)%Q)
  /\ (forall j, j < k -> (nth j scores 0 < nth k scores 0)%Q).
Proof.
  destruct scores as [|x xs]; [discriminate|].
  intros [= <-].
  apply (argmax_from_first_greatest xs [x] 0 x).
  - simpl; lia.
  - reflexivity.
  - intros j Hj; simpl in Hj. replace j with 0 by lia. apply Qle_refl.
  - intros j Hj; lia.
Qed.

(** A sample counts as a hit exactly when its label is its highest-scoring
    class, in the words of the spec. *)
Lemma hit_iff_top1 (scores : list Q) (label : Z) :
  hit (scores, label) = true <-> top1_is scores label.
Proof.
  unfold hit, top1_is; cbn [fst snd]. split.
  - destruct (highest_scoring scores) as [k|] eqn:E; [|discriminate].
    intros H. apply Z.eqb_eq in H.
    destruct (highest_scoring_first_greatest scores k E) as (Hk & Hmax & Hfirst).
    exists k. repeat split; auto.
  - intros (k' & -> & Hk' & Hmax' & Hfirst').
    destruct (highest_scoring scores) as [k|] eqn:E.
    + destruct (highest_scoring_first_greatest scores k E) as (Hk & Hmax & Hfirst).
      apply Z.eqb_eq. f_equal.
      destruct (Nat.lt_trichotomy k k') as [Hlt | [Heq | Hgt]]; [|exact Heq|].
      * exfalso. apply (Qlt_not_le _ _ (Hfirst' k Hlt)). now apply Hmax.
      * exfalso. apply (Qlt_not_le _ _ (Hfirst k' Hgt)). now apply Hmax'.
    + destruct scores; [simpl in Hk'; lia | discriminate].
Qed.

(** The count of hits of a batch goes sample by sample: a sample adds one
    exactly when its label is its highest-scoring class. *)
Lemma correct_count_by_sample :
  (forall targets, correct_count [] targets = 0)
  /\ (forall outputs, correct_count outputs [] = 0)
  /\ (forall scores label outputs targets,
         top1_is scores label ->
         correct_count (scores :: outputs) (label :: targets)
         = S (correct_count outputs targets))
  /\ (forall scores label outputs targets,
         ~ top1_is scores label ->
         correct_count (scores :: outputs) (label :: targets)
         = correct_count outputs targets).
Proof.
  unfold correct_count. repeat split.
  - intros [|o os]; reflexivity.
  - intros scores label outputs targets H.
    apply hit_iff_top1 in H. cbn [combine filter]. now rewrite H.
  - intros scores label outputs targets H.
    cbn [combine filter].
    destruct (hit (scores, label)) eqn:E; [|reflexivity].
    apply hit_iff_top1 in E. contradiction.
Qed.

(** C7.  Let [data] be the batches seen so far, from the start of the run,
    and [d] the next one, all as the loader yields them.  The value recorded
    for [d] is the number of its samples whose highest-scoring class is the
    label, divided by the number of its samples, and it is recorded with that
    number as weight.  Before [d] the meter holds the number of all hits so
    far divided by the number of all samples so far, and after [d] it holds
    the same quotient with [d] counted in.  The meter is never reset: the
    state after any epochs is the state after their batches, and what [train]
    returns, when it returns, is read from the state after all epochs.  A
    sample is a hit exactly when its label is its highest-scoring class, the
    first class of greatest score, and the hits of a batch are counted
    sample by sample on that test. *)
Theorem top1_meter_is_running_fraction
        (env : Env) (args : Args) (epoch : nat) (data : list batch) (d : batch) :
  Forall well_formed data ->
  well_formed d ->
  let st := fst (batch_loop env args epoch initial_state data) in
  let outputs := model_forward env (S (iteration st)) (images d) in
  let final := fst (epoch_loop env args initial_state (range (epochs args))) in
  observe top1_update (snd (train_batch env args epoch st d))
  = [(accuracy outputs (targets d), Z.of_nat (List.length (images d)))]
  /\ scalar_eq (accuracy outputs (targets d))
               (Finite (inject_Z (Z.of_nat (correct_count outputs (targets d)))
                        / inject_Z (Z.of_nat (List.length (images d)))))
  /\ scalar_eq (avg (top1 st))
               (Finite (inject_Z (hits_seen env 0 data)
                        / inject_Z (samples_seen data)))
  /\ scalar_eq (avg (top1 (fst (train_batch env args epoch st d))))
               (Finite (inject_Z (hits_seen env 0 (data ++ [d]))
                        / inject_Z (samples_seen (data ++ [d]))))
  /\ (forall es,
         fst (epoch_loop env args initial_state es)
         = fst (batch_loop env args epoch initial_state (batches_of env es)))
  /\ (outcome_of (train env args)
      = Return (avg (top1 final), avg (losses final))
      \/ exists e, outcome_of (train env args) = Raise e)
  /\ (forall scores label,
         hit (scores, label) = true <-> top1_is scores label)
  /\ (forall ts, correct_count [] ts = 0)
  /\ (forall os, correct_count os [] = 0)
  /\ (forall scores label os ts,
         top1_is scores label ->
         correct_count (scores :: os) (label :: ts) = S (correct_count os ts))
  /\ (forall scores label os ts,
         ~ top1_is scores label ->
         correct_count (scores :: os) (label :: ts) = correct_count os ts).
Proof.
  intros Hwf Hd st outputs final.
  assert (Hrun : forall l, Forall well_formed l ->
                   scalar_eq
                     (avg (top1 (fst (batch_loop env args epoch initial_state l))))
                     (Finite (inject_Z (hits_seen env 0 l)
                              / inject_Z (samples_seen l)))).
  { intros l Hl.
    destruct (batch_loop_top1 env args epoch l initial_state 0 0 Hl
                              meter_holds_new (Z.le_refl 0))
      as (q & _ & _ & _ & Havg).
    exact Havg. }
  split; [|split; [|split; [|split; [|split; [|split]]]]].
  7: { split; [exact hit_iff_top1 | exact correct_count_by_sample]. }
  - rewrite train_batch_trace.
    destruct (Py.truthy (cuda args)), (Py.truthy (tensorboard args));
      reflexivity.
  - destruct Hd as [Hlen Hne].
    rewrite accuracy_fraction, Hlen; [apply Qeq_refl|].
    intros E; rewrite E in Hlen; simpl in Hlen.
    destruct (images d); [contradiction | discriminate].
  - now apply Hrun.
  - assert (Hall : Forall well_formed (data ++ [d])).
    { apply Forall_app; split; [assumption | now constructor]. }
    specialize (Hrun _ Hall).
    rewrite batch_loop_state_app in Hrun.
    cbn [batch_loop] in Hrun.
    fold st in Hrun.
    destruct (train_batch env args epoch st d) as [st1 t1].
    exact Hrun.
  - intros es.
    now rewrite epoch_loop_state, (batch_loop_state_epoch env args 0 epoch).
  - destruct (train_shape env args) as [(e & He & _) | (pre & post & Ht & _)].
    + right; now exists e.
    + left. cbv zeta in Ht. now rewrite Ht.
Qed.

Lemma top1_meter_is_running_fraction_witness :
  let data := dataloader sample_env 0 in
  let d := sample_batch in
  let st := fst (batch_loop sample_env sample_args 1 initial_state data) in
  scalar_eq (avg (top1 st)) (Finite (2 # 3))
  /\ scalar_eq (avg (top1 (fst (train_batch sample_env sample_args 1 st d))))
               (Finite (3 # 5)).
Proof.
  intros data d st.
  assert (Hdata : Forall well_formed data).
  { repeat constructor; discriminate. }
  assert (Hd : well_formed d).
  { split; [reflexivity | discriminate]. }
  destruct (top1_meter_is_running_fraction
              sample_env sample_args 1 data d Hdata Hd)
    as (_ & _ & Hbefore & Hafter & _).
  split.
  - exact Hbefore.
  - exact Hafter.
Defined.

(* ------------------------------------------------------------------ *)
(** ** The outcome of [train] and the order of its checks *)


(** The configuration of a run that returns, spelled out. *)
Lemma config_ok_facts (env : Env) (args : Args) :
  config_ok env args = true ->
  (dataset args = "CIFAR10" \/ dataset args = "pets")
  /\ dataset_root args = Some (required_root env args)
  /\ basenet args = "vgg"
  /\ depth args = 16%Z
  /\ batch_size args <> 0%Z.
Proof.
  unfold config_ok; intros H.
  repeat (apply andb_true_iff in H; destruct H as [H ?]).
  apply orb_true_iff in H.
  repeat split.
  - destruct H as [H | H]; apply String.eqb_eq in H; tauto.
  - now apply opt_eqb_true.
  - now apply String.eqb_eq.
  - now apply Z.eqb_eq.
  - match goal with
    | H : negb _ = true |- _ => apply negb_true_iff, Z.eqb_neq in H; exact H
    end.
Qed.

(** X1.  The dataset root is checked first: a root that is not the path
    required for the chosen dataset is reported under the "Must specify"
    message of that dataset whatever the model settings, and nothing has
    been built by then but, if asked for, the tensorboard writer. *)
Theorem dataset_root_is_checked_first (env : Env) (args : Args) :
  dataset args = "CIFAR10" \/ dataset args = "pets" ->
  dataset_root args <> Some (required_root env args) ->
  outcome_of (train env args)
  = Raise (ValueError
             (if String.eqb (dataset args) "CIFAR10"
              then "Must specify dataset_root if specifying dataset CIFAR10."
              else "Must specify dataset_root if specifying dataset PETS."))
  /\ trace_of (train env args)
     = if Py.truthy (tensorboard args)
       then [SummaryWriter (tensorboard_log args)]
       else [].
Proof.
  intros Hds Hr.
  unfold train, ready_dataset, when, emit, raise, ret, bind,
    outcome_of, trace_of, required_root, Py.opt_neqb in *.
  assert (Hroot : forall x, dataset_root args <> Some x ->
                            Py.opt_eqb (dataset_root args) (Some x) = false).
  { intros x Hx. destruct (Py.opt_eqb _ _) eqn:E; [|reflexivity].
    apply opt_eqb_true in E. contradiction. }
  destruct (String.eqb (dataset args) "CIFAR10") eqn:Ec;
    [|destruct (String.eqb (dataset args) "pets") eqn:Ep].
  3: { apply String.eqb_neq in Ec, Ep; tauto. }
  all: rewrite (Hroot _ Hr); cbn;
    destruct (Py.truthy (tensorboard args)); split; reflexivity.
Qed.

Lemma dataset_root_is_checked_first_witness :
  let args := with_dataset (with_basenet sample_args "resnet") "CIFAR10" in
  outcome_of (train sample_env args)
  = Raise (ValueError "Must specify dataset_root if specifying dataset CIFAR10.")
  /\ trace_of (train sample_env args) = [].
Proof.
  intros args.
  apply (dataset_root_is_checked_first sample_env args).
  - left; reflexivity.
  - vm_compute; discriminate.
Defined.

(** X2.  With the root accepted and a batch size the DataLoader takes, the
    model is checked next, the type before the depth: a base model other
    than 'vgg' is an unsupported type whatever the depth, and a depth other
    than 16 is reported for 'vgg' only.  Either error is found only after
    the dataset and the data loader have been built, and before any model
    is. *)
Theorem model_is_checked_after_the_dataset (env : Env) (args : Args) :
  dataset args = "CIFAR10" \/ dataset args = "pets" ->
  dataset_root args = Some (required_root env args) ->
  (0 < batch_size args)%Z ->
  basenet args <> "vgg" \/ depth args <> 16%Z ->
  outcome_of (train env args)
  = Raise (ValueError (if String.eqb (basenet args) "vgg"
                       then "Unsupported model depth!"
                       else "Unsupported model type!"))
  /\ trace_of (train env args)
     = (if Py.truthy (tensorboard args)
        then [SummaryWriter (tensorboard_log args)]
        else [])
       ++ [MakeDataset (dataset args) (dataset_root args) (image_size args);
           MakeDataLoader (batch_size args) (num_workers args)].
Proof.
  intros Hds Hr _ Hbad.
  unfold train, ready_dataset, define_model, when, emit, raise, ret, bind,
    outcome_of, trace_of, required_root, Py.opt_neqb in *.
  assert (Hroot : forall x, dataset_root args = Some x ->
                            Py.opt_eqb (dataset_root args) (Some x) = true).
  { intros x Hx. now apply opt_eqb_true. }
  destruct (String.eqb (dataset args) "CIFAR10") eqn:Ec;
    [|destruct (String.eqb (dataset args) "pets") eqn:Ep].
  3: { apply String.eqb_neq in Ec, Ep; tauto. }
  1: apply String.eqb_eq in Ec.
  2: apply String.eqb_eq in Ep.
  all: rewrite (Hroot _ Hr).
  all: match goal with H : dataset _ = _ |- _ => rewrite H end.
  all: rewrite Hr; cbn [negb Py.is_None Py.of_opt].
  all: destruct (String.eqb (basenet args) "vgg") eqn:Eb;
    [ destruct (depth args =? 16)%Z eqn:Ed;
      [ apply String.eqb_eq in Eb; apply Z.eqb_eq in Ed; tauto |] |].
  all: cbn; destruct (Py.truthy (tensorboard args)); split; reflexivity.
Qed.

Lemma model_is_checked_after_the_dataset_witness :
  let args := with_basenet (with_depth sample_args 19) "resnet" in
  outcome_of (train sample_env args) = Raise (ValueError "Unsupported model type!")
  /\ trace_of (train sample_env args)
     = [MakeDataset "pets" (Some "data/pets") 64; MakeDataLoader 2 0].
Proof.
  intros args.
  apply (model_is_checked_after_the_dataset sample_env args).
  - right; reflexivity.
  - reflexivity.
  - reflexivity.
  - left; vm_compute; discriminate.
Defined.

(** X3.  The two errors "Must provide --dataset_root when training on ..."
    are never raised: a missing root is already caught by the comparison
    with the required path, under the "Must specify" message. *)
Theorem must_provide_error_is_unreachable (env : Env) (args : Args) (e : exn) :
  outcome_of (train env args) = Raise e ->
  e <> ValueError "Must provide --dataset_root when training on CIFAR10."
  /\ e <> ValueError "Must provide --dataset_root when training on PETS."
  /\ (dataset_root args = None ->
      dataset args = "CIFAR10" \/ dataset args = "pets" ->
      exists msg,
        e = ValueError msg
        /\ Py.startswith "Must specify dataset_root" msg = true).
Proof.
  unfold train, ready_dataset, define_model, place_model, loading_weights,
    floordiv, when, emit, emits, raise, ret, bind, outcome_of.
  destruct (epoch_loop env args initial_state (range (epochs args)))
    as [st t].
  destruct (dataset_root args) as [root|] eqn:Er.
  - split_ifs; cbn [fst snd]; try discriminate.
    all: intros [= <-].
    all: split; [discriminate | split; [discriminate | discriminate]].
  - cbn [Py.opt_neqb Py.opt_eqb negb].
    split_ifs; cbn [fst snd]; try discriminate.
    all: intros [= <-].
    all: split; [discriminate | split; [discriminate |]]; intros _ Hds.
    all: first [ eexists; split; reflexivity
               | exfalso;
                 match goal with
                 | H1 : String.eqb _ "CIFAR10" = false,
                   H2 : String.eqb _ "pets" = false |- _ =>
                     apply String.eqb_neq in H1, H2; tauto
                 end ].
Qed.

Lemma must_provide_error_is_unreachable_witness :
  exists msg,
    ValueError "Must specify dataset_root if specifying dataset PETS."
    = ValueError msg
    /\ Py.startswith "Must specify dataset_root" msg = true.
Proof.
  pose (args := {| dataset := "pets"; dataset_root := None; basenet := "vgg";
                   depth := 16; batch_size := 2; pretrained := Py.VBool true;
                   num_workers := 0; cuda := Py.VBool false;
                   save_folder := "checkpoints"; tensorboard := Py.VBool false;
                   log_folder := "log"; log_name := "classification_train";
                   tensorboard_log := "tensorboard"; lr := (1 # 1000)%Q;
                   epochs := 7; num_classes := 2; image_size := 64;
                   accumulation_steps := 2; resume := None |}).
  destruct (must_provide_error_is_unreachable
              sample_env args
              (ValueError "Must specify dataset_root if specifying dataset PETS."))
    as (_ & _ & H).
  - reflexivity.
  - apply H; [reflexivity | right; reflexivity].
Defined.

(* ------------------------------------------------------------------ *)
(** ** The trace of an accepted run *)

(** With a configuration that passes every check, the trace of [train] is
    the start-up, the epoch loop and the closing. *)
Lemma train_trace (env : Env) (args : Args) :
  config_ok env args = true ->
  train env args
  = (setup_trace env args
     ++ snd (epoch_loop env args initial_state (range (epochs args)))
     ++ closing args,
     Return (avg (top1 (fst (epoch_loop env args initial_state
                                        (range (epochs args))))),
             avg (losses (fst (epoch_loop env args initial_state
                                          (range (epochs args))))))).
Proof.
  intros Hok.
  destruct (config_ok_facts env args Hok) as (Hds & Hr & Hb & Hd & Hbs).
  unfold train, ready_dataset, define_model, place_model, loading_weights,
    floordiv, when, emit, emits, raise, ret, bind, setup_trace,
    placement_events, weights_loading_events, closing, required_root,
    Py.opt_neqb in *.
  destruct (epoch_loop env args initial_state (range (epochs args)))
    as [st t]; cbn [fst snd].
  apply Z.eqb_neq in Hbs. rewrite Hbs, Hb, Hd.
  destruct Hds as [Hds | Hds]; rewrite Hds in *;
    cbn [String.eqb Ascii.eqb Bool.eqb andb] in *;
    rewrite Hr; cbn [Py.opt_eqb]; rewrite String.eqb_refl;
    cbn [negb Py.is_None Py.of_opt Z.eqb Pos.eqb].
  all: destruct (resume args) as [file|];
    [ cbn [Py.truthy Py.of_opt Py.is_None];
      destruct (String.eqb file "");
      [| destruct (OsPath.splitext file) as [other ext];
         rewrite supported_ext_truthy ] |].
  all: destruct (Py.truthy (tensorboard args)), (Py.truthy (cuda args)),
    (cuda_is_available env); reflexivity.
Qed.

Lemma observe_loop_blind {A : Type} (f : event -> option A) (t : list event) :
  (forall e, loop_event e = true -> f e = None) ->
  Forall (fun e => loop_event e = true) t ->
  observe f t = [].
Proof.
  intros Hf Ht; apply observe_none.
  eapply Forall_impl; [|exact Ht]. exact Hf.
Qed.

(** An observation that is blind to the epoch loop and to the closing sees,
    in an accepted run, what it sees in the start-up. *)
Lemma observe_setup_only {A : Type} (f : event -> option A)
      (env : Env) (args : Args) :
  (forall e, loop_event e = true -> f e = None) ->
  f WriterClose = None -> f PrintFinishedTime = None ->
  config_ok env args = true ->
  observe f (trace_of (train env args)) = observe f (setup_trace env args).
Proof.
  intros Hloop Hw Hp Hok.
  rewrite (train_trace env args Hok); unfold trace_of; cbn [fst].
  rewrite !observe_app.
  rewrite (observe_loop_blind f _ Hloop (epoch_loop_events _ _ _ _)).
  unfold closing; destruct (Py.truthy (tensorboard args)); cbn [observe app];
    rewrite ?Hw, ?Hp; now rewrite app_nil_r.
Qed.

(** An observation that is blind to the start-up and to the closing sees, in
    an accepted run, what it sees in the epoch loop. *)
Lemma observe_loop_only {A : Type} (f : event -> option A)
      (env : Env) (args : Args) :
  (forall e, setup_event e = true -> f e = None) ->
  config_ok env args = true ->
  observe f (trace_of (train env args))
  = observe f (snd (epoch_loop env args initial_state (range (epochs args)))).
Proof.
  intros Hf Hok. rewrite (train_observe f env args Hf).
  rewrite (train_trace env args Hok). reflexivity.
Qed.

(* ------------------------------------------------------------------ *)
(** ** The weights of the model *)



Lemma substring_all (s : string) : String.substring 0 (String.length s) s = s.
Proof. induction s as [|c s IH]; simpl; [reflexivity | now rewrite IH]. Qed.

Lemma substring_skip (a b : string) (n : nat) :
  String.substring (String.length a) n (a ++ b) = String.substring 0 n b.
Proof. induction a as [|c a IH]; simpl; [reflexivity | exact IH]. Qed.

Lemma endswith_append (a b : string) : Py.endswith b (a ++ b) = true.
Proof.
  unfold Py.endswith, Py.slice_from.
  rewrite append_length.
  replace (String.length a + String.length b - String.length b)
    with (String.length a) by lia.
  replace (String.length a + String.length b - String.length a)
    with (String.length b) by lia.
  rewrite substring_skip, substring_all, String.eqb_refl.
  apply andb_true_iff; split; [|reflexivity].
  apply Nat.leb_le; lia.
Qed.

Lemma startswith_append (a b : string) : Py.startswith a (a ++ b) = true.
Proof.
  unfold Py.startswith.
  induction a as [|c a IH]; simpl.
  - now destruct b.
  - destruct (ascii_dec c c) as [_ | N]; [exact IH | contradiction].
Qed.

(** X5.  The file a non-empty resume name is read from, in a run whose
    configuration is accepted and whose batch size the DataLoader takes.
    An absolute name is read as it is, the save folder being ignored.  Any
    other name is glued to the save folder, with one "/" in between unless
    the folder is empty or ends with one.  The name is taken verbatim,
    nothing is normalised: the path read ends with the name as given, so a
    name with ".." in it is read from where that leads. *)
Theorem resume_file_path (env : Env) (args : Args) (file : string) :
  config_ok env args = true ->
  (0 < batch_size args)%Z ->
  resume args = Some file ->
  file <> "" ->
  exists p,
    observe loaded_path (trace_of (train env args)) = [p]
    /\ p = (if Py.startswith "/" file then file
            else if String.eqb (save_folder args) ""
                    || Py.endswith "/" (save_folder args)
                 then save_folder args ++ file
                 else save_folder args ++ "/" ++ file)%string
    /\ Py.endswith file p = true.
Proof.
  intros Hok _ Hres Hne.
  exists (OsPath.join (save_folder args) file); split; [|split].
  - rewrite observe_setup_only; try assumption; try reflexivity.
    + unfold setup_trace, placement_events, weights_loading_events.
      rewrite Hres. apply String.eqb_neq in Hne. rewrite Hne.
      destruct (Py.truthy (tensorboard args)), (Py.truthy (cuda args)),
        (cuda_is_available env); reflexivity.
    + intros [] E; simpl in *; reflexivity || discriminate.
  - reflexivity.
  - unfold OsPath.join.
    destruct (Py.startswith "/" file).
    + apply (endswith_append "" file).
    + destruct (String.eqb (save_folder args) "" || Py.endswith "/" (save_folder args)).
      * apply endswith_append.
      * change (save_folder args ++ "/" ++ file)%string
          with (save_folder args ++ String "/" file)%string.
        replace (save_folder args ++ String "/" file)%string
          with ((save_folder args ++ "/") ++ file)%string.
        -- apply endswith_append.
        -- induction (save_folder args) as [|c s IH]; simpl;
             [reflexivity | now rewrite IH].
Qed.

Lemma resume_file_path_witness :
  exists p,
    observe loaded_path
            (trace_of (train sample_env
                             (with_resume sample_args (Some "../../etc/x.pth"))))
    = [p]
    /\ p = "checkpoints/../../etc/x.pth"
    /\ Py.endswith "../../etc/x.pth" p = true.
Proof.
  apply (resume_file_path sample_env
           (with_resume sample_args (Some "../../etc/x.pth"))
           "../../etc/x.pth").
  - reflexivity.
  - reflexivity.
  - reflexivity.
  - discriminate.
Defined.

(* ------------------------------------------------------------------ *)
(** ** How many checkpoints, and which files *)

Lemma run_saves (env : Env) (args : Args) :
  config_ok env args = true ->
  saves (trace_of (train env args))
  = flat_map (epoch_checkpoints args) (range (epochs args)).
Proof.
  intros Hok. unfold saves. rewrite observe_loop_only; try assumption.
  - apply epoch_loop_saves.
  - now intros [].
Qed.


Lemma epoch_checkpoints_length (args : Args) (e : nat) :
  List.length (epoch_checkpoints args e)
  = if negb (e =? 0) && (e mod 5 =? 0) then 2 else 1.
Proof.
  unfold epoch_checkpoints.
  now destruct (negb (e =? 0) && (e mod 5 =? 0)).
Qed.

Lemma checkpoints_count (args : Args) (n : nat) :
  List.length (flat_map (epoch_checkpoints args) (seq 0 n)) = n + (n - 1) / 5.
Proof.
  induction n as [|n IH]; [reflexivity|].
  rewrite seq_S, flat_map_app, length_app, IH; cbn [flat_map plus].
  rewrite app_nil_r, epoch_checkpoints_length.
  replace (S n - 1) with n by lia.
  pose proof (Nat.div_mod_eq n 5) as Hn.
  pose proof (Nat.mod_upper_bound n 5 ltac:(lia)) as Hr.
  pose proof (Nat.div_mod_eq (n - 1) 5) as Hn1.
  pose proof (Nat.mod_upper_bound (n - 1) 5 ltac:(lia)) as Hr1.
  destruct (n =? 0) eqn:E0; cbn [negb andb].
  - apply Nat.eqb_eq in E0; subst n. reflexivity.
  - apply Nat.eqb_neq in E0.
    destruct (n mod 5 =? 0) eqn:E5.
    + apply Nat.eqb_eq in E5. lia.
    + apply Nat.eqb_neq in E5. lia.
Qed.






(* ------------------------------------------------------------------ *)
(** ** The iteration counter *)







(* ------------------------------------------------------------------ *)
(** ** The tensorboard writer *)

(** X9.  The tensorboard writer is opened only when asked for, once, as the
    first thing [train] does; it is closed once when [train] returns; when
    [train] raises, the writer it has opened is left unclosed. *)
Theorem writer_life_cycle (env : Env) (args : Args) :
  observe writer_event (trace_of (train env args))
  = (if Py.truthy (tensorboard args)
     then SummaryWriter (tensorboard_log args)
          :: match outcome_of (train env args) with
             | Return _ => [WriterClose]
             | Raise _ => []
             end
     else [])
  /\ (Py.truthy (tensorboard args) = true ->
      exists rest,
        trace_of (train env args) = SummaryWriter (tensorboard_log args) :: rest).
Proof.
  unfold train, ready_dataset, define_model, place_model, loading_weights,
    floordiv, when, emit, emits, raise, ret, bind, outcome_of, trace_of.
  destruct (epoch_loop env args initial_state (range (epochs args)))
    as [st t] eqn:Eloop.
  assert (Ht : observe writer_event t = []).
  { apply observe_loop_blind.
    - intros [] E; simpl in *; reflexivity || discriminate.
    - replace t with (snd (epoch_loop env args initial_state
                                      (range (epochs args))))
        by now rewrite Eloop.
      apply epoch_loop_events. }
  split_ifs; cbn [fst snd app];
    try (match goal with
         | H : snd _ = _ |- _ => cbn in H; discriminate H
         end);
    (split; [| intros; try discriminate; eauto]).
  all: repeat (change (?a :: ?l ++ ?r) with ([a] ++ (l ++ r))).
  all: rewrite ?observe_app, ?Ht; reflexivity.
Qed.

Lemma writer_life_cycle_witness :
  exists rest,
    trace_of (train sample_env
                    (with_depth (with_tensorboard sample_args (Py.VStr "yes")) 19))
    = SummaryWriter "tensorboard" :: rest.
Proof.
  apply (writer_life_cycle
           sample_env
           (with_depth (with_tensorboard sample_args (Py.VStr "yes")) 19)).
  reflexivity.
Defined.



(* ------------------------------------------------------------------ *)
(** ** Devices *)

(** Outside its batch loop an epoch has only events that are no events of an
    iteration. *)
Lemma train_epoch_observe {A : Type} (f : event -> option A)
      (env : Env) (args : Args) (st : loop_state) (e : nat) :
  (forall ev, loop_event ev = true -> batch_event ev = false -> f ev = None) ->
  observe f (snd (train_epoch env args st e))
  = observe f (snd (batch_loop env args e st (dataloader env e))).
Proof.
  intros Hf. rewrite train_epoch_trace; cbn [fst snd].
  change (EmptyCache :: ?t) with ([EmptyCache] ++ t).
  change (SchedulerStep ?m :: PrintEpochFinished e :: ?t)
    with ([SchedulerStep m; PrintEpochFinished e] ++ t).
  rewrite !observe_app. cbn [observe].
  rewrite !(Hf EmptyCache), !(Hf (SchedulerStep _)),
    !(Hf (PrintEpochFinished _)) by reflexivity.
  rewrite (observe_none f (save_model args e)).
  - now rewrite app_nil_r.
  - unfold save_model.
    destruct (negb (e =? 0) && (e mod 5 =? 0));
      repeat constructor; now apply Hf.
Qed.






(* ------------------------------------------------------------------ *)
(** ** The script as a whole *)




(** X14.  The defaults of [parse_args] make a configuration that [train]
    accepts, wherever the paths of [utils.path] point.  On a machine with a
    GPU, which the default of --cuda asks for, and with the default save
    folder in place, the run builds the pretrained model and applies
    [weights_init] to it, loads no state dict, takes 200 schedule steps and
    makes 239 checkpoint writes. *)
Theorem default_arguments_are_accepted (env : Env) :
  cuda_is_available env = true ->
  path_exists env (CheckPoints env) = true ->
  let args := parse_args env in
  framework_ready env args
  /\ config_ok env args = true
  /\ (exists r, outcome_of (train env args) = Return r)
  /\ observe weights_event (trace_of (train env args))
     = [MakeModel 2 (Py.VBool true); ApplyWeightsInit]
  /\ List.length (scheduler_steps (trace_of (train env args))) = 200
  /\ List.length (saves (trace_of (train env args))) = 239.
Proof.
  intros Hgpu Hdir args.
  assert (Hok : config_ok env args = true).
  { unfold config_ok, required_root, args; cbn.
    now rewrite String.eqb_refl. }
  split; [|split; [exact Hok|]].
  { unfold framework_ready, args; cbn. repeat split; auto. }
  split; [|split; [|split]].
  - rewrite (train_trace env args Hok). eexists. reflexivity.
  - rewrite observe_setup_only; try assumption; try reflexivity.
    + unfold setup_trace, placement_events, weights_loading_events, args.
      cbn. destruct (cuda_is_available env); reflexivity.
    + intros [] E; simpl in *; reflexivity || discriminate.
  - unfold scheduler_steps. rewrite observe_loop_only; try assumption.
    + apply (epoch_loop_scheduler_steps_length env args (range 200)).
    + now intros [].
  - rewrite run_saves by assumption.
    apply (checkpoints_count args 200).
Qed.

Lemma default_arguments_are_accepted_witness :
  let args := parse_args gpu_env in
  framework_ready gpu_env args
  /\ config_ok gpu_env args = true
  /\ (exists r, outcome_of (train gpu_env args) = Return r)
  /\ observe weights_event (trace_of (train gpu_env args))
     = [MakeModel 2 (Py.VBool true); ApplyWeightsInit]
  /\ List.length (scheduler_steps (trace_of (train gpu_env args))) = 200
  /\ List.length (saves (trace_of (train gpu_env args))) = 239.
Proof.
  apply (default_arguments_are_accepted gpu_env).
  - reflexivity.
  - reflexivity.
Defined.

(** X15.  Choosing the CIFAR10 dataset without giving its root cannot work:
    the root then keeps its default, the path of the pets dataset, and
    [train] stops at once with the "Must specify" error, unless the two
    paths are the same. *)
Theorem cifar10_needs_its_root (env : Env) :
  CIFAR_path env <> PETS_path env ->
  let args := with_dataset (parse_args env) "CIFAR10" in
  train env args
  = ([], Raise (ValueError
                  "Must specify dataset_root if specifying dataset CIFAR10.")).
Proof.
  intros Hne args.
  unfold train, ready_dataset, when, emit, raise, ret, bind, args; cbn.
  unfold Py.opt_neqb; cbn.
  assert (E : String.eqb (PETS_path env) (CIFAR_path env) = false).
  { apply String.eqb_neq. congruence. }
  rewrite E. reflexivity.
Qed.

Lemma cifar10_needs_its_root_witness :
  train sample_env (with_dataset (parse_args sample_env) "CIFAR10")
  = ([], Raise (ValueError
                  "Must specify dataset_root if specifying dataset CIFAR10.")).
Proof.
  apply (cifar10_needs_its_root sample_env).
  discriminate.
Defined.



(* ------------------------------------------------------------------ *)
(** ** [weights_init] over a model *)

(** Induction on a module with the property assumed of its children. *)
Lemma nn_module_induction (P : nn_module -> Prop) :
  (forall c n children, Forall P children -> P (Mod c n children)) ->
  forall m, P m.
Proof.
  intros H.
  exact (fix go (m : nn_module) : P m :=
           match m with
           | Mod c n children =>
               H c n children
                 ((fix all (l : list nn_module) : Forall P l :=
                     match l with
                     | [] => Forall_nil P
                     | x :: r => Forall_cons x (go x) (all r)
                     end) children)
           end).
Qed.

Lemma apply_modules (fn : nn_module -> list init_op) (m : nn_module) :
  apply fn m = flat_map fn (modules m).
Proof.
  induction m as [c n children IH] using nn_module_induction.
  cbn [apply modules]. rewrite flat_map_app; cbn [flat_map].
  rewrite app_nil_r. f_equal.
  induction IH as [|x l Hx _ IHl]; cbn [flat_map]; [reflexivity|].
  now rewrite flat_map_app, Hx, IHl.
Qed.

Lemma weights_init_length (l : list nn_module) :
  List.length (flat_map weights_init l)
  = List.length (filter (is_class Conv2d) l)
    + 2 * List.length (filter (is_class BatchNorm2d) l)
    + 2 * List.length (filter (is_class Linear) l).
Proof.
  induction l as [|[c n ch] l IH]; [reflexivity|].
  cbn [flat_map filter]. rewrite length_app, IH.
  unfold weights_init, is_class; cbn [class_of].
  destruct c; cbn [List.length]; lia.
Qed.

(** X17.  [model.apply(weights_init)] on any model.  It calls [weights_init]
    on every module of the tree, children before their parent, and so makes
    one call into [nn.init] per Conv2d module and two per BatchNorm2d and
    per Linear module, and none for a module of another class.  Every call
    either draws a weight (normal law of deviation 0.02, or Kaiming) or sets
    a bias to zero; the bias of a Conv2d module is never set. *)
Theorem weights_init_over_a_model (m : nn_module) :
  apply weights_init m = flat_map weights_init (modules m)
  /\ List.length (apply weights_init m)
     = count_class Conv2d m + 2 * count_class BatchNorm2d m
       + 2 * count_class Linear m
  /\ Forall expected_init (apply weights_init m)
  /\ (forall c, In c (modules m) -> class_of c = Conv2d ->
                forall op, In op (weights_init c) ->
                           target op = (name_of c, "weight")).
Proof.
  split; [apply apply_modules|]. split; [|split].
  - rewrite apply_modules. apply weights_init_length.
  - rewrite apply_modules. apply Forall_forall. intros op Hop.
    apply in_flat_map in Hop. destruct Hop as ([c n ch] & _ & Hop).
    unfold weights_init in Hop; cbn [class_of name_of] in Hop.
    destruct c; cbn [In] in Hop;
      repeat (destruct Hop as [<- | Hop];
              [cbn; repeat split; try reflexivity;
               (left; reflexivity) || (right; reflexivity)|]);
      contradiction.
  - intros [c n ch] _ Hc op Hop. cbn [class_of] in Hc; subst c.
    cbn in Hop. destruct Hop as [<- | []]. reflexivity.
Qed.

Example weights_init_sample_model :
  apply weights_init sample_model
  = [normal_ "features.0" "weight" 0 (2 # 100);
     normal_ "features.1" "weight" 1 (2 # 100);
     constant_ "features.1" "bias" 0;
     normal_ "features.3" "weight" 0 (2 # 100);
     kaiming_normal_ "classifier" "weight";
     constant_ "classifier" "bias" 0].
Proof. reflexivity. Qed.

(* ------------------------------------------------------------------ *)
(** ** [os.path.splitext], as called on the resume name *)

Lemma append_empty_r (s : string) : (s ++ "")%string = s.
Proof. induction s as [|c s IH]; simpl; [reflexivity | now rewrite IH]. Qed.

Lemma substring_split (p : string) (d : nat) :
  (String.substring 0 d p ++ String.substring d (String.length p - d) p)%string
  = p.
Proof.
  revert d; induction p as [|c p IH]; intros d.
  - destruct d; reflexivity.
  - destruct d as [|d]; cbn.
    + now rewrite substring_all.
    + now rewrite IH.
Qed.

Lemma skip_leading_dots_joins (n : nat) (p : string) (d f : nat) :
  (fst (OsPath.skip_leading_dots p d f n)
   ++ snd (OsPath.skip_leading_dots p d f n))%string = p.
Proof.
  revert f; induction n as [|n IH]; intros f; cbn [OsPath.skip_leading_dots].
  - apply append_empty_r.
  - destruct (String.get f p) as [c|]; [|apply append_empty_r].
    destruct (Ascii.eqb c OsPath.extsep); [apply IH|].
    apply substring_split.
Qed.

(** The scan either keeps the whole path or cuts it at [dotIndex]. *)
Lemma skip_leading_dots_cases (n : nat) (p : string) (d f : nat) :
  OsPath.skip_leading_dots p d f n = (p, "")
  \/ OsPath.skip_leading_dots p d f n = (Py.slice_to p d, Py.slice_from p d).
Proof.
  revert f; induction n as [|n IH]; intros f; cbn [OsPath.skip_leading_dots].
  - now left.
  - destruct (String.get f p) as [c|]; [|now left].
    destruct (Ascii.eqb c OsPath.extsep); [apply IH | now right].
Qed.

(** Where [rfind] finds the character, the character is. *)
Lemma rfind_from_get (c : ascii) (s : string) (i found : Z) :
  Py.rfind_from c s i found = found
  \/ ((i <= Py.rfind_from c s i found)%Z
      /\ String.get (Z.to_nat (Py.rfind_from c s i found - i)) s = Some c).
Proof.
  revert i found; induction s as [|a s IH]; intros i found;
    cbn [Py.rfind_from]; [now left|].
  destruct (IH (i + 1)%Z (if Ascii.eqb a c then i else found)) as [E | [Hle Hget]].
  - rewrite E. destruct (Ascii.eqb a c) eqn:Eac; [|now left].
    right. split; [lia|]. rewrite Z.sub_diag. cbn.
    apply Ascii.eqb_eq in Eac. now subst.
  - right. split; [lia|].
    replace (Z.to_nat (Py.rfind_from c s (i + 1)
                                     (if Ascii.eqb a c then i else found) - i))
      with (S (Z.to_nat (Py.rfind_from c s (i + 1)
                                       (if Ascii.eqb a c then i else found)
                         - (i + 1)))) by lia.
    exact Hget.
Qed.

Lemma substring_from_get (s : string) (d : nat) (c : ascii) :
  String.get d s = Some c ->
  exists rest, String.substring d (String.length s - d) s = String c rest.
Proof.
  revert d; induction s as [|a s IH]; intros d H; [destruct d; discriminate|].
  destruct d as [|d]; cbn in *.
  - injection H as ->. eexists; reflexivity.
  - now apply IH.
Qed.

(** X18.  [os.path.splitext], which [train] calls on the resume name, cuts
    the name in two without losing anything: root and extension put together
    give the name back.  The extension is empty or begins with a dot. *)
Theorem splitext_round_trip (p : string) :
  (fst (OsPath.splitext p) ++ snd (OsPath.splitext p))%string = p
  /\ (snd (OsPath.splitext p) = ""
      \/ exists rest, snd (OsPath.splitext p) = String "."%char rest).
Proof.
  unfold OsPath.splitext.
  destruct (Py.rfind OsPath.sep p <? Py.rfind OsPath.extsep p)%Z eqn:E.
  - split; [apply skip_leading_dots_joins|].
    apply Z.ltb_lt in E.
    destruct (skip_leading_dots_cases
                (Z.to_nat (Py.rfind OsPath.extsep p - (Py.rfind OsPath.sep p + 1)))
                p (Z.to_nat (Py.rfind OsPath.extsep p))
                (Z.to_nat (Py.rfind OsPath.sep p + 1))) as [-> | ->];
      [now left|]. right. cbn [snd]. unfold Py.slice_from.
    apply substring_from_get.
    assert (Hsep : (-1 <= Py.rfind OsPath.sep p)%Z).
    { unfold Py.rfind.
      destruct (rfind_from_get OsPath.sep p 0 (-1)) as [-> | [H _]]; lia. }
    unfold Py.rfind in *.
    destruct (rfind_from_get OsPath.extsep p 0 (-1)) as [Eq | [_ Hget]].
    + rewrite Eq in E. lia.
    + now rewrite Z.sub_0_r in Hget.
  - split; [apply append_empty_r | now left].
Qed.

(* ------------------------------------------------------------------ *)
(** ** Device selection at module level *)

(** X19.  The module-level statements set the default tensor type exactly
    once, whatever the machine and the options: to the CUDA type when a GPU
    is there and CUDA is asked for, to the CPU type otherwise.  The warning
    about an unused GPU is printed exactly when a GPU is there and CUDA is
    not asked for. *)
Theorem default_tensor_type_set_once (env : Env) (args : Args) :
  observe tensor_type (module_setup env args)
  = [if cuda_is_available env && Py.truthy (cuda args)
     then "torch.cuda.FloatTensor"
     else "torch.FloatTensor"]
  /\ (In (Print cuda_warning) (module_setup env args)
      <-> cuda_is_available env = true /\ Py.truthy (cuda args) = false).
Proof.
  unfold module_setup.
  destruct (cuda_is_available env), (Py.truthy (cuda args)); cbn;
    (split; [reflexivity|]); split; try tauto;
    try (intros [? ?]; discriminate);
    intros H; repeat (destruct H as [H | H]; [discriminate H|]);
    contradiction.
Qed.

(* ------------------------------------------------------------------ *)
(** ** The loss that is reported *)

Lemma batch_loop_losses (env : Env) (args : Args) (epoch : nat)
      (data : list batch) (st : loop_state) :
  observe recorded_loss (snd (batch_loop env args epoch st data))
  = observe backward_loss (snd (batch_loop env args epoch st data))
  /\ observe backward_loss (snd (batch_loop env args epoch st data))
     = map (fun l => scalar_div_int l (accumulation_steps args))
           (observe computed_loss (snd (batch_loop env args epoch st data))).
Proof.
  revert st; induction data as [|d rest IH]; intros st.
  - split; reflexivity.
  - rewrite batch_loop_cons; cbn [snd].
    destruct (IH (fst (train_batch env args epoch st d))) as [IH1 IH2].
    rewrite !observe_app, map_app, IH1, IH2, train_batch_trace.
    destruct (Py.truthy (cuda args)), (Py.truthy (tensorboard args));
      split; reflexivity.
Qed.

Lemma epoch_loop_losses (env : Env) (args : Args)
      (es : list nat) (st : loop_state) :
  observe recorded_loss (snd (epoch_loop env args st es))
  = observe backward_loss (snd (epoch_loop env args st es))
  /\ observe backward_loss (snd (epoch_loop env args st es))
     = map (fun l => scalar_div_int l (accumulation_steps args))
           (observe computed_loss (snd (epoch_loop env args st es))).
Proof.
  revert st; induction es as [|e rest IH]; intros st.
  - split; reflexivity.
  - rewrite epoch_loop_cons; cbn [snd].
    destruct (IH (fst (train_epoch env args st e))) as [IH1 IH2].
    rewrite !observe_app, map_app, IH1, IH2.
    rewrite !train_epoch_observe
      by (intros [] E1 E2; simpl in *; reflexivity || discriminate).
    destruct (batch_loop_losses env args e (dataloader env e) st) as [H1 H2].
    now rewrite H1, H2.
Qed.

(** X20.  What the loss meter is fed, and so what is logged and what the
    plateau scheduler watches, is not the loss the criterion computes but
    the loss after its division by accumulation_steps: through a whole run
    the losses given to the meter are, one for one, those given to the
    backward pass, each the computed loss divided by accumulation_steps. *)
Theorem reported_loss_is_the_scaled_loss (env : Env) (args : Args) :
  observe recorded_loss (trace_of (train env args))
  = observe backward_loss (trace_of (train env args))
  /\ observe backward_loss (trace_of (train env args))
     = map (fun l => scalar_div_int l (accumulation_steps args))
           (observe computed_loss (trace_of (train env args))).
Proof.
  rewrite !train_observe by (now intros []).
  destruct (outcome_of (train env args)); [|split; reflexivity].
  apply epoch_loop_losses.
Qed.
